(** * Workday AP integration client: a shallow embedding and its properties

    The development embeds [src/API_Integration_Workday.py] (class
    [WorkdayAPIntegration]) in Rocq.  Python values are a small inductive
    type, dicts are association lists in insertion order, exceptions are an
    inductive type, and the methods of the class are written in a
    state-and-exception monad over the client object and the outside world
    (clock, log file, requests sent).

    Conventions of the embedding:
    - a Python [str] is identified with its UTF-8 bytes (a Rocq [string]);
    - a Python [float] is an exact rational ([Q]); binary64 rounding of
      [+] is not modelled;
    - a naive [datetime] is identified with its timestamp, tagged
      [PDatetime] so that it stays a different type from a number;
    - the remote server is a script [net]: the reply to the n-th request
      the process sends.  For a single run every server behaviour is an
      instance of such a script;
    - what [requests] itself does with a request before it sends it is
      part of the embedding ([prepare_request]): a header value with a
      line break is refused with [InvalidHeader], a payload that holds a
      datetime with the [TypeError] of [json.dumps].  Of what lies below
      the library only responses and [RequestException]s are modelled:
      the errors of other classes that [http.client] raises for a header
      value it cannot write (one that ends in a line feed, or that is not
      Latin-1) are not, and the statements that depend on the request
      having gone out take the text of the token to be printable ASCII;
    - [requests] is taken at version 2.32: the error of [json()] on a
      body that is not JSON is a [RequestException] (since 2.27), and
      the text of [InvalidHeader] quotes the header part that was
      refused. *)

From Stdlib Require Import List String Ascii ZArith QArith Bool Lia Lqa.
Import ListNotations.
Set Warnings "-register-all".
Local Open Scope string_scope.
Local Open Scope Z_scope.

(** ** Python values *)

Inductive pyval : Type :=
| PNone
| PBool (b : bool)
| PInt (n : Z)
| PFloat (x : Q)
| PStr (s : string)
| PList (l : list pyval)
| PDict (d : list (string * pyval))
| PDatetime (t : Q).

Definition pydict : Type := list (string * pyval).

(** [type(v).__name__], as it appears in the interpreter's error messages. *)
Definition type_name (v : pyval) : string :=
  match v with
  | PNone => "NoneType"
  | PBool _ => "bool"
  | PInt _ => "int"
  | PFloat _ => "float"
  | PStr _ => "str"
  | PList _ => "list"
  | PDict _ => "dict"
  | PDatetime _ => "datetime.datetime"
  end.

(** Truth value testing, as [if v] and [v and ...] do it. *)
Definition truthy (v : pyval) : bool :=
  match v with
  | PNone => false
  | PBool b => b
  | PInt n => negb (n =? 0)
  | PFloat x => negb (Qeq_bool x 0)
  | PStr s => negb (String.eqb s "")
  | PList l => match l with [] => false | _ => true end
  | PDict d => match d with [] => false | _ => true end
  | PDatetime _ => true
  end.

(** ** HTTP messages, as the [requests] library sees them *)

Inductive http_method : Type := POST | GET | PUT.

Inductive http_body : Type :=
| NoBody
| FormData (data : list (string * string))   (* [data=...] *)
| JsonBody (json : pyval).                   (* [json=...] *)

Record http_request : Type := mkRequest {
  req_method : http_method;
  req_url : string;
  req_headers : list (string * string);
  req_body : http_body
}.

(** A [requests.Response]: the status line, the body text, the body
    parsed as JSON when it is JSON, and the messages of the two errors the
    library can raise from it. *)
Record response : Type := mkResponse {
  status_code : Z;
  text : string;
  json_body : option pyval;
  http_error_msg : string;     (* [str] of the HTTPError of [raise_for_status] *)
  json_error_msg : string      (* [str] of the JSONDecodeError of [json] *)
}.

(** [Response.ok]; it is also [Response.__bool__]: a response with a 4xx
    or 5xx status is falsy. *)
Definition response_ok (r : response) : bool :=
  negb ((400 <=? status_code r) && (status_code r <? 600)).

(** ** Exceptions *)

Inductive exn : Type :=
| RequestException (msg : string) (resp : option response)
    (* [requests.RequestException] and its subclasses; [msg] is [str(e)],
       [resp] is [e.response] *)
| KeyError (key : string)
| TypeError (msg : string)
| AttributeError (msg : string)
| PyException (msg : string) (context : option exn).
    (* plain [Exception(msg)]; [context] is [__context__], set when it is
       raised while another exception is handled *)

Inductive exn_class : Type :=
| ClsRequestException | ClsKeyError | ClsTypeError | ClsAttributeError
| ClsException.

Definition class_of (e : exn) : exn_class :=
  match e with
  | RequestException _ _ => ClsRequestException
  | KeyError _ => ClsKeyError
  | TypeError _ => ClsTypeError
  | AttributeError _ => ClsAttributeError
  | PyException _ _ => ClsException
  end.

Definition exn_class_eqb (a b : exn_class) : bool :=
  match a, b with
  | ClsRequestException, ClsRequestException
  | ClsKeyError, ClsKeyError
  | ClsTypeError, ClsTypeError
  | ClsAttributeError, ClsAttributeError
  | ClsException, ClsException => true
  | _, _ => false
  end.

Inductive result (A : Type) : Type :=
| Return (a : A)
| Raise (e : exn).
Arguments Return {A} a.
Arguments Raise {A} e.

(** ** Dict and operator semantics *)

Fixpoint dict_lookup (k : string) (d : pydict) : option pyval :=
  match d with
  | [] => None
  | (k', v) :: d' => if String.eqb k k' then Some v else dict_lookup k d'
  end.

(** [d[k]] on a dict. *)
Definition dict_getitem (d : pydict) (k : string) : result pyval :=
  match dict_lookup k d with
  | Some v => Return v
  | None => Raise (KeyError k)
  end.

(** [d.get(k, default)] on a dict. *)
Definition dict_get (d : pydict) (k : string) (default : pyval) : pyval :=
  match dict_lookup k d with
  | Some v => v
  | None => default
  end.

(** [v[k]] with a string key on any value. *)
Definition py_getitem (v : pyval) (k : string) : result pyval :=
  match v with
  | PDict d => dict_getitem d k
  | PList _ => Raise (TypeError "list indices must be integers or slices, not str")
  | PStr _ => Raise (TypeError "string indices must be integers, not 'str'")
  | _ => Raise (TypeError ("'" ++ type_name v ++ "' object is not subscriptable"))
  end.

(** [v.get(k, default)] on any value: only a dict has the method. *)
Definition py_get (v : pyval) (k : string) (default : pyval) : result pyval :=
  match v with
  | PDict d => Return (dict_get d k default)
  | _ => Raise (AttributeError
                  ("'" ++ type_name v ++ "' object has no attribute 'get'"))
  end.

(** [a > b].  A datetime is ordered against a datetime only; a number
    against a datetime is a [TypeError].  The client uses [>] with a
    datetime on the right, which is the case modelled. *)
Definition py_gt_datetime (a : pyval) (now : Q) : result bool :=
  match a with
  | PDatetime t => Return (negb (Qle_bool t now))
  | _ => Raise (TypeError
                  ("'>' not supported between instances of '" ++ type_name a
                   ++ "' and 'datetime.datetime'"))
  end.

(** [x + v] with a float on the left, in exact arithmetic: neither the
    rounding to binary64 nor the [OverflowError] for an [int] beyond the
    range of [float] is modelled. *)
Definition py_float_add (x : Q) (v : pyval) : result pyval :=
  match v with
  | PInt n => Return (PFloat (x + inject_Z n))
  | PFloat y => Return (PFloat (x + y))
  | PBool b => Return (PFloat (x + (if b then 1 else 0)))
  | _ => Raise (TypeError
                  ("unsupported operand type(s) for +: 'float' and '"
                   ++ type_name v ++ "'"))
  end.

(** ** base64 *)

Definition b64_alphabet : string :=
  "ABCDEFGHIJKLMNOPQRSTUVWXYZabcdefghijklmnopqrstuvwxyz0123456789+/".

Definition b64_char (n : N) : ascii :=
  match String.get (N.to_nat (N.land n 63)) b64_alphabet with
  | Some c => c
  | None => "="%char
  end.

Definition b64_group (n : N) (pad : nat) : string :=
  let c0 := b64_char (N.shiftr n 18) in
  let c1 := b64_char (N.shiftr n 12) in
  let c2 := b64_char (N.shiftr n 6) in
  let c3 := b64_char n in
  match pad with
  | O => String c0 (String c1 (String c2 (String c3 "")))
  | S O => String c0 (String c1 (String c2 "="))
  | _ => String c0 (String c1 "==")
  end.

(** [base64.b64encode] on the bytes of a string. *)
Fixpoint b64encode (s : string) : string :=
  match s with
  | "" => ""
  | String a "" =>
      b64_group (N.shiftl (N_of_ascii a) 16) 2
  | String a (String b "") =>
      b64_group (N.lor (N.shiftl (N_of_ascii a) 16)
                       (N.shiftl (N_of_ascii b) 8)) 1
  | String a (String b (String c rest)) =>
      b64_group (N.lor (N.lor (N.shiftl (N_of_ascii a) 16)
                              (N.shiftl (N_of_ascii b) 8))
                       (N_of_ascii c)) 0
      ++ b64encode rest
  end.

(** ** What [requests] checks before it sends anything

    [requests.post/get/put] prepare the request first: the headers are
    validated ([check_header_validity]), then a [json=] payload is
    serialised ([json.dumps]).  A header that is refused raises
    [InvalidHeader], a [RequestException] whose text quotes the header; a
    payload that cannot be serialised raises the [TypeError] of
    [json.dumps].  In both cases nothing is sent.  The URL is taken to be
    one that the library accepts. *)

Definition is_line_break (c : ascii) : bool :=
  Ascii.eqb c "010" || Ascii.eqb c "013".

(** The string starts with a character that the regular expression [\s]
    matches in a [str]: the ASCII ones and, in UTF-8, U+0085, U+00A0,
    U+1680, U+2000..U+200A, U+2028, U+2029, U+202F, U+205F, U+3000. *)
Definition starts_with_space (s : string) : bool :=
  match s with
  | "" => false
  | String c rest =>
      let n := N_of_ascii c in
      ((9 <=? n) && (n <=? 13))%N || ((28 <=? n) && (n <=? 32))%N
      || match n, rest with
         | 194%N, String d _ =>
             (N_of_ascii d =? 133)%N || (N_of_ascii d =? 160)%N
         | 225%N, String d (String e _) =>
             (N_of_ascii d =? 154)%N && (N_of_ascii e =? 128)%N
         | 226%N, String d (String e _) =>
             ((N_of_ascii d =? 128)%N
              && (((128 <=? N_of_ascii e) && (N_of_ascii e <=? 138))%N
                  || (N_of_ascii e =? 168)%N || (N_of_ascii e =? 169)%N
                  || (N_of_ascii e =? 175)%N))
             || ((N_of_ascii d =? 129)%N && (N_of_ascii e =? 159)%N)
         | 227%N, String d (String e _) =>
             (N_of_ascii d =? 128)%N && (N_of_ascii e =? 128)%N
         | _, _ => false
         end
  end.

(** [[^\r\n]*$]: no line break, except that [$] also matches before a
    line feed that ends the string. *)
Fixpoint no_break_before_end (s : string) : bool :=
  match s with
  | "" => true
  | String c rest =>
      if is_line_break c
      then Ascii.eqb c "010" && String.eqb rest ""
      else no_break_before_end rest
  end.

(** [[^:\r\n]*$] *)
Fixpoint no_colon_or_break_before_end (s : string) : bool :=
  match s with
  | "" => true
  | String c rest =>
      if is_line_break c
      then Ascii.eqb c "010" && String.eqb rest ""
      else negb (Ascii.eqb c ":") && no_colon_or_break_before_end rest
  end.

(** The pattern [^[^:\s][^:\r\n]*$] for the name of a header. *)
Definition header_name_valid (name : string) : bool :=
  match name with
  | "" => false
  | String c _ =>
      negb (Ascii.eqb c ":") && negb (starts_with_space name)
      && no_colon_or_break_before_end name
  end.

(** The pattern [^\S[^\r\n]*$|^$] for the value of a header. *)
Definition header_value_valid (value : string) : bool :=
  match value with
  | "" => true
  | String c rest =>
      (negb (starts_with_space value) && no_break_before_end value)
      || (Ascii.eqb c "010" && String.eqb rest "")
  end.

Definition hex_digit (n : N) : ascii :=
  match String.get (N.to_nat n) "0123456789abcdef" with
  | Some c => c
  | None => "0"%char
  end.

(** One character of a [str] as [repr] writes it between the quotes
    [quote]. *)
Definition repr_char (quote : ascii) (c : ascii) : string :=
  let n := N_of_ascii c in
  if Ascii.eqb c "\" then "\\"
  else if Ascii.eqb c quote then String "\" (String c "")
  else if Ascii.eqb c "009" then "\t"
  else if Ascii.eqb c "010" then "\n"
  else if Ascii.eqb c "013" then "\r"
  else if ((n <? 32) || (n =? 127))%N
       then String "\" (String "x"
              (String (hex_digit (n / 16)) (String (hex_digit (n mod 16)) "")))
  else String c "".

Fixpoint repr_chars (quote : ascii) (s : string) : string :=
  match s with
  | "" => ""
  | String c rest => repr_char quote c ++ repr_chars quote rest
  end.

Fixpoint has_char (c : ascii) (s : string) : bool :=
  match s with
  | "" => false
  | String d rest => Ascii.eqb c d || has_char c rest
  end.

(** [repr(s)] of a [str]: single quotes, unless the text has a single
    quote and no double quote; backslash, quote, tab, line breaks and
    control characters escaped.  Bytes beyond ASCII are kept, which is
    what [repr] does with printable text. *)
Definition py_repr_str (s : string) : string :=
  let double_quote := "034"%char in
  let quote :=
    if has_char "'" s && negb (has_char double_quote s)
    then double_quote else "'"%char in
  String quote (repr_chars quote s) ++ String quote "".

(** [json.dumps] goes through: the value holds no datetime. *)
Fixpoint json_serializable (v : pyval) : bool :=
  match v with
  | PDatetime _ => false
  | PList l => forallb json_serializable l
  | PDict d => forallb (fun kv => json_serializable (snd kv)) d
  | _ => true
  end.

(** The [InvalidHeader] of [_validate_header_part]. *)
Definition invalid_header (kind part : string) : exn :=
  RequestException
    ("Invalid leading whitespace, reserved character(s), or return character(s) in header "
     ++ kind ++ ": " ++ py_repr_str part)
    None.

(** [prepare_headers]: the first header part that is refused. *)
Fixpoint check_headers (headers : list (string * string)) : option exn :=
  match headers with
  | [] => None
  | (name, value) :: rest =>
      if negb (header_name_valid name)
      then Some (invalid_header "name" name)
      else if negb (header_value_valid value)
      then Some (invalid_header "value" value)
      else check_headers rest
  end.

(** [prepare_body] *)
Definition check_body (body : http_body) : option exn :=
  match body with
  | JsonBody v =>
      if json_serializable v then None
      else Some (TypeError "Object of type datetime is not JSON serializable")
  | _ => None
  end.

(** What the library raises while it prepares the request, if anything:
    headers are prepared before the body. *)
Definition prepare_request (req : http_request) : option exn :=
  match check_headers (req_headers req) with
  | Some e => Some e
  | None => check_body (req_body req)
  end.

(** Every character is printable ASCII (codes 32 to 126). *)
Definition printable_ascii (s : string) : bool :=
  forallb (fun c => ((32 <=? N_of_ascii c) && (N_of_ascii c <=? 126))%N)
          (list_ascii_of_string s).

Fixpoint no_line_break (s : string) : bool :=
  match s with
  | "" => true
  | String c rest => negb (is_line_break c) && no_line_break rest
  end.

(** ** The client object and the outside world *)

(** The attributes of a [WorkdayAPIntegration] instance.  [token] and
    [token_expiry] hold whatever was last assigned to them. *)
Record client : Type := mkClient {
  tenant_url : string;
  client_id : string;
  client_secret : string;
  token : pyval;
  token_expiry : pyval
}.

(** [__init__] *)
Definition init (tenant_url client_id client_secret : string) : client :=
  mkClient tenant_url client_id client_secret PNone PNone.

Inductive log_level : Type := INFO | ERROR.

Record log_record : Type := mkLog {
  log_level_of : log_level;
  log_message : string
}.

(** What the process can observe and change outside the object: the wall
    clock (seconds), the requests sent so far and the records appended to
    [ap_integration.log] (the logger is configured at level INFO, so both
    [info] and [error] records are written). *)
Record world : Type := mkWorld {
  clock : Q;
  sent : list http_request;
  log : list log_record
}.

(** What comes back from one call of [requests.post/get/put]: after
    [latency] seconds, either the library raises a [RequestException]
    (connection error, timeout, too many redirects, ...) or it returns a
    response. *)
Inductive net_outcome : Type :=
| NetError (msg : string) (resp : option response)
| NetResponse (r : response).

Record net_reply : Type := mkReply {
  latency : Q;
  outcome : net_outcome
}.

(** ** The monad of method bodies *)

Definition M (A : Type) : Type := client -> world -> result A * client * world.

Definition ret {A} (a : A) : M A := fun c w => (Return a, c, w).

Definition raise {A} (e : exn) : M A := fun c w => (Raise e, c, w).

Definition bind {A B} (m : M A) (k : A -> M B) : M B :=
  fun c w =>
    match m c w with
    | (Return a, c', w') => k a c' w'
    | (Raise e, c', w') => (Raise e, c', w')
    end.

Notation "x <- m ;; k" := (bind m (fun x => k))
  (at level 61, m at next level, right associativity).
Notation "m ;;; k" := (bind m (fun _ => k))
  (at level 61, right associativity).

Definition lift {A} (r : result A) : M A := fun c w => (r, c, w).

(** [try: body / except requests.RequestException as e: handler]: only a
    [RequestException] is caught; the handler gets [str(e)] and
    [e.response]. *)
Definition try_except_RequestException {A}
    (body : M A) (handler : string -> option response -> M A) : M A :=
  fun c w =>
    match body c w with
    | (Raise (RequestException msg resp), c', w') => handler msg resp c' w'
    | r => r
    end.

Definition get_self : M client := fun c w => (Return c, c, w).

Definition set_token (v : pyval) : M unit :=
  fun c w =>
    (Return tt,
     mkClient (tenant_url c) (client_id c) (client_secret c) v (token_expiry c),
     w).

Definition set_token_expiry (v : pyval) : M unit :=
  fun c w =>
    (Return tt,
     mkClient (tenant_url c) (client_id c) (client_secret c) (token c) v,
     w).

(** [datetime.now()] *)
Definition datetime_now : M Q := fun c w => (Return (clock w), c, w).

Definition logger_write (lvl : log_level) (msg : string) : M unit :=
  fun c w =>
    (Return tt, c, mkWorld (clock w) (sent w) (log w ++ [mkLog lvl msg])).

Definition logger_info : string -> M unit := logger_write INFO.
Definition logger_error : string -> M unit := logger_write ERROR.

(** [response.raise_for_status()]: an [HTTPError] carrying the response,
    for a 4xx or 5xx status. *)
Definition raise_for_status (r : response) : M unit :=
  if response_ok r then ret tt
  else raise (RequestException (http_error_msg r) (Some r)).

(** [response.json()]: [requests.exceptions.JSONDecodeError], a
    [RequestException] that carries no response, when the body is not
    JSON. *)
Definition response_json (r : response) : M pyval :=
  match json_body r with
  | Some v => ret v
  | None => raise (RequestException (json_error_msg r) None)
  end.

(** ** Building the wire payloads (pure part of the methods) *)

Definition rbind {A B} (r : result A) (k : A -> result B) : result B :=
  match r with
  | Return a => k a
  | Raise e => Raise e
  end.

Notation "x <~ r ;; k" := (rbind r (fun x => k))
  (at level 61, r at next level, right associativity).

(** Iterating a value, as a comprehension's [for ... in v] does. *)
Definition py_iter (v : pyval) : result (list pyval) :=
  match v with
  | PList l => Return l
  | PDict d => Return (map (fun kv => PStr (fst kv)) d)
  | PStr s => Return (map (fun ch => PStr (String ch "")) (list_ascii_of_string s))
  | _ => Raise (TypeError ("'" ++ type_name v ++ "' object is not iterable"))
  end.

(** One element of the [invoiceLines] comprehension (source lines 93-103),
    for the pair [(idx, item)] of [enumerate]. *)
Definition invoice_line (invoice_data : pydict) (idx : Z) (item : pyval)
  : result pyval :=
  description <~ py_get item "description" (PStr "") ;;
  amount <~ py_getitem item "amount" ;;
  cost_center <~ py_get item "cost_center" (PStr "") ;;
  project_id <~ py_get item "project_id" (PStr "") ;;
  account_category <~ py_get item "account_category" (PStr "") ;;
  Return (PDict
    [ ("lineNumber", PInt (idx + 1));
      ("itemDescription", description);
      ("amount", PDict [ ("amount", amount);
                         ("currency", dict_get invoice_data "currency" (PStr "USD")) ]);
      ("costCenter", cost_center);
      ("projectReference", project_id);
      ("accountCategory", account_category) ]).

(** The comprehension over [enumerate(...)], from index [idx] on. *)
Fixpoint invoice_lines (invoice_data : pydict) (idx : Z) (items : list pyval)
  : result (list pyval) :=
  match items with
  | [] => Return []
  | item :: rest =>
      line <~ invoice_line invoice_data idx item ;;
      lines <~ invoice_lines invoice_data (idx + 1) rest ;;
      Return (line :: lines)
  end.

(** The dict display assigned to [formatted_invoice] (source lines 83-106);
    its entries are evaluated in source order. *)
Definition formatted_invoice (invoice_data : pydict) : result pyval :=
  supplier_id <~ dict_getitem invoice_data "supplier_id" ;;
  invoice_number <~ dict_getitem invoice_data "invoice_number" ;;
  invoice_date <~ dict_getitem invoice_data "invoice_date" ;;
  total_amount <~ dict_getitem invoice_data "total_amount" ;;
  line_items <~ dict_getitem invoice_data "line_items" ;;
  items <~ py_iter line_items ;;
  lines <~ invoice_lines invoice_data 0 items ;;
  Return (PDict
    [ ("supplierReference", supplier_id);
      ("invoiceNumber", invoice_number);
      ("invoiceDate", invoice_date);
      ("invoiceDescription", dict_get invoice_data "description" (PStr ""));
      ("invoiceTotal", PDict [ ("amount", total_amount);
                               ("currency", dict_get invoice_data "currency" (PStr "USD")) ]);
      ("invoiceLines", PList lines) ]).

(** The dict display assigned to [formatted_payment] (source lines 167-175). *)
Definition formatted_payment (payment_data : pydict) : result pyval :=
  payment_date <~ dict_getitem payment_data "payment_date" ;;
  payment_method <~ dict_getitem payment_data "payment_method" ;;
  amount <~ dict_getitem payment_data "amount" ;;
  Return (PDict
    [ ("paymentDate", payment_date);
      ("paymentMethod", payment_method);
      ("paymentAmount", PDict [ ("amount", amount);
                                ("currency", dict_get payment_data "currency" (PStr "USD")) ]);
      ("paymentReference", dict_get payment_data "reference" (PStr "")) ]).


(** A rendering of [str(v)] that is right on strings, [None] and bools;
    used where a run is evaluated on concrete values. *)
Definition py_str_sample (v : pyval) : string :=
  match v with
  | PStr s => s
  | PNone => "None"
  | PBool true => "True"
  | PBool false => "False"
  | _ => "<object>"
  end.

(** ** The methods of [WorkdayAPIntegration] *)

Section Client.

(** Python's [str()], which f-strings apply to interpolated values. *)
Variable py_str : pyval -> string.

(** The remote side: the reply to the n-th request of the process. *)
Variable net : nat -> net_reply.

(** [requests.post], [requests.get], [requests.put]: the library prepares
    the request, which may raise before anything is sent; otherwise the
    request goes out, the clock advances by the latency of the reply, and
    the library raises or returns a response. *)
Definition requests_send (req : http_request) : M response :=
  fun c w =>
    match prepare_request req with
    | Some e => (Raise e, c, w)
    | None =>
        let reply := net (List.length (sent w)) in
        let w' := mkWorld (clock w + latency reply) (sent w ++ [req]) (log w) in
        match outcome reply with
        | NetError msg resp => (Raise (RequestException msg resp), c, w')
        | NetResponse r => (Return r, c, w')
        end
    end.

(** The request of source lines 36-50. *)
Definition token_request (self : client) : http_request :=
  let auth_url := tenant_url self ++ "/ccx/oauth2/token" in
  let auth_header :=
    b64encode (client_id self ++ ":" ++ client_secret self) in
  mkRequest POST auth_url
    [ ("Authorization", "Basic " ++ auth_header);
      ("Content-Type", "application/x-www-form-urlencoded") ]
    (FormData [ ("grant_type", "client_credentials");
                ("scope", "workday_api") ]).

(** The condition of source line 33; [and] short-circuits, so the clock
    is read and [>] evaluated only when both attributes are truthy. *)
Definition token_is_fresh : M bool :=
  self <- get_self ;;
  if truthy (token self) && truthy (token_expiry self) then
    now <- datetime_now ;;
    lift (py_gt_datetime (token_expiry self) now)
  else ret false.

Definition get_auth_token : M pyval :=
  fresh <- token_is_fresh ;;
  if (fresh : bool) then
    self <- get_self ;; ret (token self)
  else
    self <- get_self ;;
    try_except_RequestException
      (response <- requests_send (token_request self) ;;
       raise_for_status response ;;;
       token_data <- response_json response ;;
       access_token <- lift (py_getitem token_data "access_token") ;;
       set_token access_token ;;;
       now <- datetime_now ;;
       expires_in <- lift (py_getitem token_data "expires_in") ;;
       expiry <- lift (py_float_add now expires_in) ;;
       set_token_expiry expiry ;;;
       self' <- get_self ;; ret (token self'))
      (fun msg resp =>
         logger_error ("Authentication error: " ++ msg) ;;;
         raise (PyException ("Failed to authenticate with Workday: " ++ msg)
                            (Some (RequestException msg resp)))).

Definition invoices_endpoint (self : client) : string :=
  tenant_url self ++ "/api/v1/financial-management/suppliers/invoices".

(** Source lines 117-118: [e.response] is tested for truth, and a
    response is truthy when it is [ok]. *)
Definition log_error_response (resp : option response) : M unit :=
  match resp with
  | Some r => if response_ok r then logger_error ("Response: " ++ text r)
              else ret tt
  | None => ret tt
  end.

Definition create_invoice (invoice_data : pydict) : M pyval :=
  token <- get_auth_token ;;
  self <- get_self ;;
  let api_endpoint := invoices_endpoint self in
  let headers :=
    [ ("Authorization", "Bearer " ++ py_str token);
      ("Content-Type", "application/json");
      ("Accept", "application/json") ] in
  formatted <- lift (formatted_invoice invoice_data) ;;
  try_except_RequestException
    (response <- requests_send
                   (mkRequest POST api_endpoint headers (JsonBody formatted)) ;;
     raise_for_status response ;;;
     result <- response_json response ;;
     invoice_number <- lift (dict_getitem invoice_data "invoice_number") ;;
     logger_info ("Successfully created invoice " ++ py_str invoice_number
                  ++ " in Workday") ;;;
     ret result)
    (fun msg resp =>
       logger_error ("Error creating invoice: " ++ msg) ;;;
       log_error_response resp ;;;
       raise (PyException ("Failed to create invoice in Workday: " ++ msg)
                          (Some (RequestException msg resp)))).

Definition get_invoice_status (invoice_id : pyval) : M pyval :=
  token <- get_auth_token ;;
  self <- get_self ;;
  let api_endpoint := invoices_endpoint self ++ "/" ++ py_str invoice_id in
  let headers :=
    [ ("Authorization", "Bearer " ++ py_str token);
      ("Accept", "application/json") ] in
  try_except_RequestException
    (response <- requests_send (mkRequest GET api_endpoint headers NoBody) ;;
     raise_for_status response ;;;
     response_json response)
    (fun msg resp =>
       logger_error ("Error getting invoice status: " ++ msg) ;;;
       raise (PyException ("Failed to get invoice status from Workday: " ++ msg)
                          (Some (RequestException msg resp)))).

Definition update_invoice_payment (invoice_id : pyval) (payment_data : pydict)
  : M pyval :=
  token <- get_auth_token ;;
  self <- get_self ;;
  let api_endpoint :=
    invoices_endpoint self ++ "/" ++ py_str invoice_id ++ "/payments" in
  let headers :=
    [ ("Authorization", "Bearer " ++ py_str token);
      ("Content-Type", "application/json");
      ("Accept", "application/json") ] in
  formatted <- lift (formatted_payment payment_data) ;;
  try_except_RequestException
    (response <- requests_send
                   (mkRequest PUT api_endpoint headers (JsonBody formatted)) ;;
     raise_for_status response ;;;
     logger_info ("Successfully updated payment for invoice "
                  ++ py_str invoice_id) ;;;
     response_json response)
    (fun msg resp =>
       logger_error ("Error updating payment: " ++ msg) ;;;
       raise (PyException ("Failed to update invoice payment in Workday: " ++ msg)
                          (Some (RequestException msg resp)))).

End Client.

(** ** Reading results and payloads *)

Definition result_of {A} (r : result A * client * world) : result A :=
  fst (fst r).
Definition client_of {A} (r : result A * client * world) : client :=
  snd (fst r).
Definition world_of {A} (r : result A * client * world) : world := snd r.

(** The requests and log records a run added to the world it started in. *)
Definition new_requests (before after : world) : list http_request :=
  skipn (List.length (sent before)) (sent after).

(** [v[k]] read off a payload, when [v] is a dict that has the key. *)
Definition field (k : string) (v : pyval) : option pyval :=
  match v with
  | PDict d => dict_lookup k d
  | _ => None
  end.

Definition field2 (k1 k2 : string) (v : pyval) : option pyval :=
  match field k1 v with
  | Some v' => field k2 v'
  | None => None
  end.

Definition keys_of (v : pyval) : list string :=
  match v with
  | PDict d => map fst d
  | _ => []
  end.

(** ** The wire schema as section 6 of the specification words it *)

(** An optional field of a request: its value, or the default. *)
Definition optional (k : string) (default : pyval) (v : pyval) : pyval :=
  match field k v with
  | Some x => x
  | None => default
  end.

(** A required field of a valid request. *)
Definition required (k : string) (v : pyval) : pyval :=
  optional k PNone v.

(** line_items[i] -> invoiceLines[i], with lineNumber = i + 1. *)
Definition spec_invoice_line (currency : pyval) (i : nat) (item : pyval)
  : pyval :=
  PDict
    [ ("lineNumber", PInt (Z.of_nat i + 1));
      ("itemDescription", optional "description" (PStr "") item);
      ("amount", PDict [ ("amount", required "amount" item);
                         ("currency", currency) ]);
      ("costCenter", optional "cost_center" (PStr "") item);
      ("projectReference", optional "project_id" (PStr "") item);
      ("accountCategory", optional "account_category" (PStr "") item) ].

Fixpoint spec_invoice_lines (currency : pyval) (i : nat) (items : list pyval)
  : list pyval :=
  match items with
  | [] => []
  | item :: rest =>
      spec_invoice_line currency i item
      :: spec_invoice_lines currency (S i) rest
  end.

Definition list_items (v : pyval) : list pyval :=
  match v with
  | PList l => l
  | _ => []
  end.

Definition spec_invoice_payload (invoice_data : pydict) : pyval :=
  let request := PDict invoice_data in
  let currency := optional "currency" (PStr "USD") request in
  PDict
    [ ("supplierReference", required "supplier_id" request);
      ("invoiceNumber", required "invoice_number" request);
      ("invoiceDate", required "invoice_date" request);
      ("invoiceDescription", optional "description" (PStr "") request);
      ("invoiceTotal", PDict [ ("amount", required "total_amount" request);
                               ("currency", currency) ]);
      ("invoiceLines",
       PList (spec_invoice_lines currency 0
                (list_items (required "line_items" request)))) ].

Definition spec_payment_payload (payment_data : pydict) : pyval :=
  let request := PDict payment_data in
  PDict
    [ ("paymentDate", required "payment_date" request);
      ("paymentMethod", required "payment_method" request);
      ("paymentAmount",
       PDict [ ("amount", required "amount" request);
               ("currency", optional "currency" (PStr "USD") request) ]);
      ("paymentReference", optional "reference" (PStr "") request) ].

Definition has_key (k : string) (d : pydict) : bool :=
  match dict_lookup k d with
  | Some _ => true
  | None => false
  end.

Definition valid_line_item (item : pyval) : bool :=
  match item with
  | PDict f => has_key "amount" f
  | _ => false
  end.

(** The preconditions of createInvoice that the source relies on: the
    required fields are there, the line items are a list of dicts, and
    each of them has an amount.  (The source does not need the list to be
    non-empty.) *)
Definition valid_invoice_request (d : pydict) : bool :=
  has_key "supplier_id" d && has_key "invoice_number" d
  && has_key "invoice_date" d && has_key "total_amount" d
  && match dict_lookup "line_items" d with
     | Some (PList items) => forallb valid_line_item items
     | _ => false
     end.

Definition valid_payment_request (d : pydict) : bool :=
  has_key "payment_date" d && has_key "payment_method" d && has_key "amount" d.

(** ** Keys of the wire payloads and optional fields *)

Definition invoice_wire_keys : list string :=
  [ "supplierReference"; "invoiceNumber"; "invoiceDate";
    "invoiceDescription"; "invoiceTotal"; "invoiceLines" ].

Definition line_wire_keys : list string :=
  [ "lineNumber"; "itemDescription"; "amount"; "costCenter";
    "projectReference"; "accountCategory" ].

Definition payment_wire_keys : list string :=
  [ "paymentDate"; "paymentMethod"; "paymentAmount"; "paymentReference" ].

Definition money_keys : list string := [ "amount"; "currency" ].

(** The optional fields of a line item, with the wire key of each. *)
Definition optional_line_fields : list (string * string) :=
  [ ("description", "itemDescription");
    ("cost_center", "costCenter");
    ("project_id", "projectReference");
    ("account_category", "accountCategory") ].

(** A generated line has every wire key, and the empty string for each
    optional field that its line item omits. *)
Definition line_has_defaults (item line : pyval) : Prop :=
  keys_of line = line_wire_keys /\
  (exists money, field "amount" line = Some money /\
                 keys_of money = money_keys) /\
  forall k wire,
    In (k, wire) optional_line_fields ->
    field k item = None -> field wire line = Some (PStr "").

(** ** Sample values *)

(** The request of the end-to-end scenario of the specification. *)
Definition scenario_request : pydict :=
  [ ("supplier_id", PStr "S1");
    ("invoice_number", PStr "INV-1");
    ("invoice_date", PStr "2025-01-01");
    ("total_amount", PFloat 100);
    ("line_items", PList [ PDict [ ("amount", PFloat 100) ] ]) ].

Definition scenario_payload : pyval :=
  PDict
    [ ("supplierReference", PStr "S1");
      ("invoiceNumber", PStr "INV-1");
      ("invoiceDate", PStr "2025-01-01");
      ("invoiceDescription", PStr "");
      ("invoiceTotal", PDict [ ("amount", PFloat 100);
                               ("currency", PStr "USD") ]);
      ("invoiceLines",
       PList [ PDict [ ("lineNumber", PInt 1);
                       ("itemDescription", PStr "");
                       ("amount", PDict [ ("amount", PFloat 100);
                                          ("currency", PStr "USD") ]);
                       ("costCenter", PStr "");
                       ("projectReference", PStr "");
                       ("accountCategory", PStr "") ] ]) ].

(** An invoice in euros with three lines; the second line carries a
    currency of its own, which the source never reads. *)
Definition euro_request : pydict :=
  [ ("supplier_id", PStr "S2");
    ("invoice_number", PStr "INV-2");
    ("invoice_date", PStr "2025-02-01");
    ("description", PStr "Three lines");
    ("total_amount", PInt 60);
    ("currency", PStr "EUR");
    ("line_items",
     PList [ PDict [ ("amount", PInt 10) ];
             PDict [ ("amount", PInt 20); ("currency", PStr "GBP");
                     ("cost_center", PStr "CC-1") ];
             PDict [ ("description", PStr "third"); ("amount", PInt 30) ] ]) ].

Definition sample_payment : pydict :=
  [ ("payment_date", PStr "2025-03-15");
    ("payment_method", PStr "ACH");
    ("amount", PFloat 100) ].

Definition sample_client : client :=
  init "https://t.example.com" "id" "s3cret".

Definition sample_world : world := mkWorld 1000 [] [].

Definition json_response (v : pyval) : response :=
  mkResponse 200 "" (Some v) "" "".

Definition error_response (status : Z) (body message : string) : response :=
  mkResponse status body None message "Expecting value: line 1 column 1 (char 0)".

Definition token_json : pyval :=
  PDict [ ("access_token", PStr "tok"); ("expires_in", PInt 3600) ].

(** A server that answers the token request with a token good for an hour
    and every later request with a small JSON object; each reply takes one
    second. *)
Definition net_ok (n : nat) : net_reply :=
  match n with
  | O => mkReply 1 (NetResponse (json_response token_json))
  | _ => mkReply 1 (NetResponse (json_response (PDict [ ("id", PStr "WD-1") ])))
  end.

(** A server whose every reply is a 503. *)
Definition net_unavailable (n : nat) : net_reply :=
  mkReply 1 (NetResponse
    (error_response 503 "maintenance" "503 Server Error: Service Unavailable")).

(** A server that issues a token and then refuses every request with a
    401. *)
Definition net_unauthorized (n : nat) : net_reply :=
  match n with
  | O => mkReply 1 (NetResponse (json_response token_json))
  | _ => mkReply 1 (NetResponse
           (error_response 401 "denied" "401 Client Error: Unauthorized"))
  end.

(** The client as the first successful refresh at time 1001 leaves it. *)
Definition refreshed_client : client :=
  mkClient "https://t.example.com" "id" "s3cret" (PStr "tok") (PFloat 4601).

(** ** Outcomes of one HTTP exchange *)

(** The [RequestException] that the sequence [requests.<method>(...)],
    [raise_for_status()], [json()] raises on a reply, as [(str(e),
    e.response)]: a transport error, a 4xx/5xx status, or a body that is
    not JSON; [None] when the sequence goes through. *)
Definition reply_failure (reply : net_reply)
  : option (string * option response) :=
  match outcome reply with
  | NetError msg resp => Some (msg, resp)
  | NetResponse r =>
      if response_ok r then
        match json_body r with
        | Some _ => None
        | None => Some (json_error_msg r, None)
        end
      else Some (http_error_msg r, Some r)
  end.

(** The failures of the token request as the code has them: a transport
    error or a status that [raise_for_status] rejects, 4xx and 5xx. *)
Definition transport_or_status_failure (reply : net_reply) : bool :=
  match outcome reply with
  | NetError _ _ => true
  | NetResponse r => negb (response_ok r)
  end.

(** The failures as the specification words them: a transport error or
    a status that is not 2xx. *)
Definition transport_or_non_2xx (reply : net_reply) : bool :=
  match outcome reply with
  | NetError _ _ => true
  | NetResponse r => negb ((200 <=? status_code r) && (status_code r <? 300))
  end.


(** ** Requests with a missing required field *)

Definition invoice_required_keys : list string :=
  [ "supplier_id"; "invoice_number"; "invoice_date"; "total_amount";
    "line_items" ].

Definition payment_required_keys : list string :=
  [ "payment_date"; "payment_method"; "amount" ].

Definition is_dict (v : pyval) : bool :=
  match v with
  | PDict _ => true
  | _ => false
  end.

(** An invoice request lacks a required field: a required key of the
    request itself, or the amount of one of its line items (the line
    items being a list of dicts). *)
Definition missing_invoice_field (d : pydict) : bool :=
  negb (forallb (fun k => has_key k d) invoice_required_keys)
  || match dict_lookup "line_items" d with
     | Some (PList items) =>
         forallb is_dict items && negb (forallb valid_line_item items)
     | _ => false
     end.

Definition missing_payment_field (d : pydict) : bool :=
  negb (forallb (fun k => has_key k d) payment_required_keys).

(** ** The operations of the client, as one type *)

Inductive operation : Type :=
| OpGetAuthToken
| OpCreateInvoice (invoice_data : pydict)
| OpGetInvoiceStatus (invoice_id : pyval)
| OpUpdateInvoicePayment (invoice_id : pyval) (payment_data : pydict).

Definition run_operation (py_str : pyval -> string) (net : nat -> net_reply)
    (op : operation) : M pyval :=
  match op with
  | OpGetAuthToken => get_auth_token net
  | OpCreateInvoice invoice_data => create_invoice py_str net invoice_data
  | OpGetInvoiceStatus invoice_id => get_invoice_status py_str net invoice_id
  | OpUpdateInvoicePayment invoice_id payment_data =>
      update_invoice_payment py_str net invoice_id payment_data
  end.

(** The payload an operation builds after it has its token, if any. *)
Definition operation_payload (op : operation) : result (option pyval) :=
  match op with
  | OpGetAuthToken => Return None
  | OpCreateInvoice invoice_data =>
      p <~ formatted_invoice invoice_data ;; Return (Some p)
  | OpGetInvoiceStatus _ => Return None
  | OpUpdateInvoicePayment _ payment_data =>
      p <~ formatted_payment payment_data ;; Return (Some p)
  end.

Definition operation_missing_field (op : operation) : bool :=
  match op with
  | OpCreateInvoice invoice_data => missing_invoice_field invoice_data
  | OpUpdateInvoicePayment _ payment_data => missing_payment_field payment_data
  | _ => false
  end.

(** The text in front of [str(e)] in the exception an operation raises
    when its own HTTP exchange fails (source lines 119, 145 and 185). *)
Definition failure_prefix (op : operation) : string :=
  match op with
  | OpGetAuthToken => "Failed to authenticate with Workday: "
  | OpCreateInvoice _ => "Failed to create invoice in Workday: "
  | OpGetInvoiceStatus _ => "Failed to get invoice status from Workday: "
  | OpUpdateInvoicePayment _ _ => "Failed to update invoice payment in Workday: "
  end.

Definition is_post_auth (op : operation) : bool :=
  match op with
  | OpGetAuthToken => false
  | _ => true
  end.

(** The text in front of [str(e)] in the error record an operation logs
    when its own HTTP exchange fails (source lines 60, 116, 144, 184). *)
Definition error_record_prefix (op : operation) : string :=
  match op with
  | OpGetAuthToken => "Authentication error: "
  | OpCreateInvoice _ => "Error creating invoice: "
  | OpGetInvoiceStatus _ => "Error getting invoice status: "
  | OpUpdateInvoicePayment _ _ => "Error updating payment: "
  end.

Definition json_body_of (payload : option pyval) : http_body :=
  match payload with
  | Some p => JsonBody p
  | None => NoBody
  end.

(** [json.dumps] goes through on the payload, if there is one. *)
Definition payload_serializable (payload : option pyval) : bool :=
  match payload with
  | Some p => json_serializable p
  | None => true
  end.

(** The request of an operation's own HTTP exchange, for the object
    [self], the token [tok] and the payload built. *)
Definition operation_request (py_str : pyval -> string) (op : operation)
    (self : client) (tok : pyval) (payload : option pyval) : http_request :=
  match op with
  | OpGetAuthToken => token_request self
  | OpCreateInvoice _ =>
      mkRequest POST (invoices_endpoint self)
        [ ("Authorization", "Bearer " ++ py_str tok);
          ("Content-Type", "application/json");
          ("Accept", "application/json") ]
        (json_body_of payload)
  | OpGetInvoiceStatus invoice_id =>
      mkRequest GET (invoices_endpoint self ++ "/" ++ py_str invoice_id)
        [ ("Authorization", "Bearer " ++ py_str tok);
          ("Accept", "application/json") ]
        (json_body_of payload)
  | OpUpdateInvoicePayment invoice_id _ =>
      mkRequest PUT
        (invoices_endpoint self ++ "/" ++ py_str invoice_id ++ "/payments")
        [ ("Authorization", "Bearer " ++ py_str tok);
          ("Content-Type", "application/json");
          ("Accept", "application/json") ]
        (json_body_of payload)
  end.

(** ** The error taxonomy of the specification *)

Inductive failure_kind : Type :=
| TokenEndpointFailure      (* AuthenticationError *)
| MissingRequiredField      (* ValidationError *)
| InvoiceCreationFailure    (* InvoiceCreationError *)
| StatusLookupFailure       (* StatusLookupError *)
| PaymentUpdateFailure.     (* PaymentUpdateError *)

Definition raised_class {A} (r : result A * client * world)
  : option exn_class :=
  match result_of r with
  | Raise e => Some (class_of e)
  | Return _ => None
  end.

(** One failing run of each kind. *)
Definition sample_failure (k : failure_kind) : result pyval * client * world :=
  match k with
  | TokenEndpointFailure =>
      get_auth_token net_unavailable sample_client sample_world
  | MissingRequiredField =>
      create_invoice py_str_sample net_ok [ ("supplier_id", PStr "S1") ]
        sample_client sample_world
  | InvoiceCreationFailure =>
      create_invoice py_str_sample net_unauthorized scenario_request
        sample_client sample_world
  | StatusLookupFailure =>
      get_invoice_status py_str_sample net_unauthorized (PStr "WD-1")
        sample_client sample_world
  | PaymentUpdateFailure =>
      update_invoice_payment py_str_sample net_unauthorized (PStr "WD-1")
        sample_payment sample_client sample_world
  end.

(** The taxonomy as the specification states it: failures of different
    kinds reach the caller as exceptions of different types. *)
Definition distinct_typed_errors
    (run : failure_kind -> result pyval * client * world) : Prop :=
  forall k1 k2 : failure_kind,
    k1 <> k2 -> raised_class (run k1) <> raised_class (run k2).

(** ** Secrets and the log *)











(** ** The example script of the source (lines 189-245) *)

Definition WORKDAY_TENANT : string := "https://wd2-impl-services1.workday.com".
Definition CLIENT_ID : string := "your_client_id".
Definition CLIENT_SECRET : string := "your_client_secret".

Definition invoice : pydict :=
  [ ("supplier_id", PStr "SUPP-001234");
    ("invoice_number", PStr "INV-2025-0012");
    ("invoice_date", PStr "2025-03-01");
    ("description", PStr "Office supplies for Q1");
    ("total_amount", PFloat 1250.75);
    ("currency", PStr "USD");
    ("line_items",
     PList [ PDict [ ("description", PStr "Printer paper");
                     ("amount", PFloat 450.25);
                     ("cost_center", PStr "CC-IT-001");
                     ("account_category", PStr "OFFICE_SUPPLIES") ];
             PDict [ ("description", PStr "Toner cartridges");
                     ("amount", PFloat 800.50);
                     ("cost_center", PStr "CC-IT-001");
                     ("account_category", PStr "OFFICE_SUPPLIES") ] ]) ].

Definition payment : pydict :=
  [ ("payment_date", PStr "2025-03-15");
    ("payment_method", PStr "ACH");
    ("amount", PFloat 1250.75);
    ("currency", PStr "USD");
    ("reference", PStr "PMT-2025-0089") ].

(** [str(e)].  For a [KeyError] it is the [repr] of the key, which is the
    key between single quotes for a key without quotes, backslashes or
    control characters; every key the source looks up is such a literal. *)
Definition exn_str (e : exn) : string :=
  match e with
  | RequestException msg _ => msg
  | KeyError key => "'" ++ key ++ "'"
  | TypeError msg => msg
  | AttributeError msg => msg
  | PyException msg _ => msg
  end.

(** The script under [if __name__ == "__main__"]: what it prints, line by
    line, and the object and the world it leaves.  Every exception of the
    [try] block is an [Exception], so each one ends the block in the
    handler of line 244. *)
Definition main (py_str : pyval -> string) (net : nat -> net_reply)
    (w : world) : list string * client * world :=
  let workday := init WORKDAY_TENANT CLIENT_ID CLIENT_SECRET in
  let integration_error := fun e : exn => "Integration error: " ++ exn_str e in
  match create_invoice py_str net invoice workday w with
  | (Raise e, c1, w1) => ([integration_error e], c1, w1)
  | (Return result, c1, w1) =>
  match py_getitem result "id" with
  | Raise e => ([integration_error e], c1, w1)
  | Return invoice_id =>
  let created := "Created invoice with ID: " ++ py_str invoice_id in
  match get_invoice_status py_str net invoice_id c1 w1 with
  | (Raise e, c2, w2) => ([created; integration_error e], c2, w2)
  | (Return status, c2, w2) =>
  match py_getitem status "approvalStatus" with
  | Raise e => ([created; integration_error e], c2, w2)
  | Return approval =>
  let approved := "Invoice status: " ++ py_str approval in
  match update_invoice_payment py_str net invoice_id payment c2 w2 with
  | (Raise e, c3, w3) => ([created; approved; integration_error e], c3, w3)
  | (Return updated, c3, w3) =>
  match py_getitem updated "paymentStatus" with
  | Raise e => ([created; approved; integration_error e], c3, w3)
  | Return payment_status =>
      ([created; approved;
        "Updated invoice payment status: " ++ py_str payment_status],
       c3, w3)
  end end end end end end.

(** ** Callers *)

(** A caller that runs operations one after the other on the same
    object, catching what each of them raises. *)
Fixpoint run_sequence (py_str : pyval -> string) (net : nat -> net_reply)
    (ops : list operation) (c : client) (w : world)
  : list (result pyval) * client * world :=
  match ops with
  | [] => ([], c, w)
  | op :: rest =>
      match run_operation py_str net op c w with
      | (r, c', w') =>
          match run_sequence py_str net rest c' w' with
          | (rs, c'', w'') => (r :: rs, c'', w'')
          end
      end
  end.

(** The first key of [keys], in order, that the dict does not have. *)
Fixpoint first_missing (keys : list string) (d : pydict) : option string :=
  match keys with
  | [] => None
  | k :: rest => if has_key k d then first_missing rest d else Some k
  end.

(** The keys of an invoice request that the source reads. *)
Definition invoice_request_keys : list string :=
  [ "supplier_id"; "invoice_number"; "invoice_date"; "description";
    "total_amount"; "currency"; "line_items" ].

Definition is_error_record (r : log_record) : bool :=
  match log_level_of r with
  | ERROR => true
  | INFO => false
  end.

Definition is_client_exception (r : result pyval) : bool :=
  match r with
  | Raise (PyException _ _) => true
  | _ => false
  end.

(** What the comprehension raises on a line item it cannot use: a dict
    without an amount fails at [item["amount"]], anything else at
    [item.get]. *)
Definition line_item_error (item : pyval) : exn :=
  match item with
  | PDict _ => KeyError "amount"
  | _ => AttributeError
           ("'" ++ type_name item ++ "' object has no attribute 'get'")
  end.

(** ** More sample values *)

(** An object whose expiry was set to a datetime by hand. *)
Definition datetime_client : client :=
  mkClient "https://t.example.com" "id" "s3cret" (PStr "tok") (PDatetime 2000).

(** A token endpoint that answers 200 with an error object. *)
Definition net_no_token (n : nat) : net_reply :=
  mkReply 1 (NetResponse
    (json_response (PDict [ ("error", PStr "invalid_client") ]))).

(** A token endpoint that answers 200 with a token and no lifetime. *)
Definition net_no_expiry (n : nat) : net_reply :=
  mkReply 1 (NetResponse
    (json_response (PDict [ ("access_token", PStr "tok") ]))).

(** A server that issues a token and then answers 200 with a page that
    is not JSON. *)
Definition net_html (n : nat) : net_reply :=
  match n with
  | O => mkReply 1 (NetResponse (json_response token_json))
  | _ => mkReply 1 (NetResponse
           (mkResponse 200 "<html>ok</html>" None ""
              "Expecting value: line 1 column 1 (char 0)"))
  end.

(** A token endpoint that answers 300 Multiple Choices with a token
    object in the body. *)
Definition net_multiple_choices (n : nat) : net_reply :=
  mkReply 1 (NetResponse
    (mkResponse 300 "" (Some (PDict [ ("access_token", PStr "tok-300");
                                      ("expires_in", PInt 3600) ]))
       "" "")).

(** A server that issues a token and then redirects for ever: the
    library gives up with an error that carries the last 302. *)
Definition net_redirects (n : nat) : net_reply :=
  match n with
  | O => mkReply 1 (NetResponse (json_response token_json))
  | _ => mkReply 1 (NetError "Exceeded 30 redirects."
           (Some (mkResponse 302 "Moved" None "" "")))
  end.

(** The scenario request with a purchase order number added in front and
    its keys in another order. *)
Definition scenario_request_reordered : pydict :=
  [ ("po_number", PStr "PO-7");
    ("line_items", PList [ PDict [ ("amount", PFloat 100) ] ]);
    ("total_amount", PFloat 100);
    ("invoice_date", PStr "2025-01-01");
    ("invoice_number", PStr "INV-1");
    ("supplier_id", PStr "S1") ].

(** A request whose second line item is a string. *)
Definition bad_line_request : pydict :=
  [ ("supplier_id", PStr "S1");
    ("invoice_number", PStr "INV-1");
    ("invoice_date", PStr "2025-01-01");
    ("total_amount", PFloat 100);
    ("line_items",
     PList [ PDict [ ("amount", PFloat 100) ];
             PStr "freight";
             PDict [ ("description", PStr "no amount") ] ]) ].

(** A request whose invoice date is a datetime object. *)
Definition datetime_request : pydict :=
  [ ("supplier_id", PStr "S1");
    ("invoice_number", PStr "INV-1");
    ("invoice_date", PDatetime 1735689600);
    ("total_amount", PFloat 100);
    ("line_items", PList [ PDict [ ("amount", PFloat 100) ] ]) ].

(** A request without line items. *)
Definition empty_lines_request : pydict :=
  [ ("supplier_id", PStr "S1");
    ("invoice_number", PStr "INV-1");
    ("invoice_date", PStr "2025-01-01");
    ("total_amount", PFloat 0);
    ("line_items", PList []) ].

(** The world in which the sample client has just got its token. *)
Definition refreshed_world : world :=
  mkWorld 1001 [token_request sample_client] [].

(** ** The outcomes of a token refresh *)

(** What a refresh leaves, outcome by outcome. *)
Inductive refresh_outcome (net : nat -> net_reply) (c : client) (w : world)
  : result pyval * client * world -> Prop :=
| RefreshFailed (msg : string) (resp : option response) :
    reply_failure (net (List.length (sent w))) = Some (msg, resp) ->
    refresh_outcome net c w
      (Raise (PyException ("Failed to authenticate with Workday: " ++ msg)
                          (Some (RequestException msg resp))),
       c,
       mkWorld (clock w + latency (net (List.length (sent w))))
               (sent w ++ [token_request c])
               (log w ++ [mkLog ERROR ("Authentication error: " ++ msg)]))
| RefreshNoToken (r : response) (j : pyval) (e : exn) :
    outcome (net (List.length (sent w))) = NetResponse r ->
    response_ok r = true -> json_body r = Some j ->
    py_getitem j "access_token" = Raise e ->
    refresh_outcome net c w
      (Raise e, c,
       mkWorld (clock w + latency (net (List.length (sent w))))
               (sent w ++ [token_request c]) (log w))
| RefreshNoExpiry (r : response) (j tok : pyval) (e : exn) :
    outcome (net (List.length (sent w))) = NetResponse r ->
    response_ok r = true -> json_body r = Some j ->
    py_getitem j "access_token" = Return tok ->
    (x <~ py_getitem j "expires_in" ;;
     py_float_add (clock w + latency (net (List.length (sent w)))) x)
    = Raise e ->
    refresh_outcome net c w
      (Raise e,
       mkClient (tenant_url c) (client_id c) (client_secret c) tok
                (token_expiry c),
       mkWorld (clock w + latency (net (List.length (sent w))))
               (sent w ++ [token_request c]) (log w))
| RefreshDone (r : response) (j tok : pyval) (y : Q) :
    outcome (net (List.length (sent w))) = NetResponse r ->
    response_ok r = true -> json_body r = Some j ->
    py_getitem j "access_token" = Return tok ->
    (x <~ py_getitem j "expires_in" ;;
     py_float_add (clock w + latency (net (List.length (sent w)))) x)
    = Return (PFloat y) ->
    refresh_outcome net c w
      (Return tok,
       mkClient (tenant_url c) (client_id c) (client_secret c) tok (PFloat y),
       mkWorld (clock w + latency (net (List.length (sent w))))
               (sent w ++ [token_request c]) (log w)).

(** * Properties *)

(** ** base64 on the test vectors of RFC 4648 and on the credentials of
    the example in the source *)

Example b64encode_rfc4648 :
  b64encode "" = "" /\ b64encode "f" = "Zg==" /\ b64encode "fo" = "Zm8="
  /\ b64encode "foo" = "Zm9v" /\ b64encode "foobar" = "Zm9vYmFy"
  /\ b64encode "your_client_id:your_client_secret"
     = "eW91cl9jbGllbnRfaWQ6eW91cl9jbGllbnRfc2VjcmV0".
Proof. repeat split; reflexivity. Qed.

(** ** The library's checks on the requests of the client *)

Lemma b64_alphabet_no_break (k : nat) (c : ascii) :
  String.get k b64_alphabet = Some c -> is_line_break c = false.
Proof.
  intros H.
  assert (Hin : In c (list_ascii_of_string b64_alphabet)).
  { revert k H. generalize b64_alphabet. intros s. induction s as [|a s IH]; intros k H.
    - destruct k; discriminate.
    - destruct k as [|k]; simpl in H.
      + inversion H. left. reflexivity.
      + right. exact (IH k H). }
  assert (Hall : forallb (fun a => negb (is_line_break a))
                         (list_ascii_of_string b64_alphabet) = true)
    by (vm_compute; reflexivity).
  rewrite forallb_forall in Hall. specialize (Hall c Hin).
  apply negb_true_iff in Hall. exact Hall.
Qed.

Lemma b64_char_no_break (n : N) : is_line_break (b64_char n) = false.
Proof.
  unfold b64_char.
  destruct (String.get (N.to_nat (N.land n 63)) b64_alphabet) eqn:H.
  - exact (b64_alphabet_no_break _ _ H).
  - reflexivity.
Qed.

Lemma no_line_break_app (s t : string) :
  no_line_break (s ++ t) = no_line_break s && no_line_break t.
Proof.
  induction s as [|c s IH]; simpl; [reflexivity|].
  rewrite IH. apply andb_assoc.
Qed.

Lemma b64_group_no_break (n : N) (pad : nat) :
  no_line_break (b64_group n pad) = true.
Proof.
  unfold b64_group.
  pose proof (b64_char_no_break (N.shiftr n 18)) as H0.
  pose proof (b64_char_no_break (N.shiftr n 12)) as H1.
  pose proof (b64_char_no_break (N.shiftr n 6)) as H2.
  pose proof (b64_char_no_break n) as H3.
  destruct pad as [|[|pad]]; cbn [no_line_break];
    rewrite ?H0, ?H1, ?H2, ?H3; reflexivity.
Qed.

Lemma b64encode_three (a b c : ascii) (s : string) :
  b64encode (String a (String b (String c s)))
  = b64_group (N.lor (N.lor (N.shiftl (N_of_ascii a) 16)
                            (N.shiftl (N_of_ascii b) 8))
                     (N_of_ascii c)) 0 ++ b64encode s.
Proof. reflexivity. Qed.

Lemma b64encode_no_break (s : string) : no_line_break (b64encode s) = true.
Proof.
  assert (H : forall s, no_line_break (b64encode s) = true
                        /\ (forall a, no_line_break (b64encode (String a s)) = true)
                        /\ (forall a b, no_line_break (b64encode (String a (String b s))) = true)).
  { clear s. induction s as [|c s [IH0 [IH1 IH2]]].
    - split; [reflexivity|]. split; intros.
      + exact (b64_group_no_break _ 2).
      + exact (b64_group_no_break _ 1).
    - split; [exact (IH1 c)|]. split; [intros a; exact (IH2 a c)|].
      intros a b. rewrite b64encode_three, no_line_break_app.
      rewrite (b64_group_no_break _ 0), IH0. reflexivity. }
  apply H.
Qed.

Lemma no_line_break_before_end (s : string) :
  no_line_break s = true -> no_break_before_end s = true.
Proof.
  induction s as [|c s IH]; cbn [no_line_break no_break_before_end]; [reflexivity|].
  destruct (is_line_break c); cbn [negb andb]; [discriminate | exact IH].
Qed.

Lemma printable_no_line_break (s : string) :
  printable_ascii s = true -> no_line_break s = true.
Proof.
  unfold printable_ascii.
  induction s as [|c s IH]; cbn [list_ascii_of_string forallb no_line_break];
    [reflexivity|].
  intros H. apply andb_true_iff in H. destruct H as [Hc Hs].
  rewrite (IH Hs), andb_true_r.
  apply andb_true_iff in Hc. destruct Hc as [Hlo _].
  unfold is_line_break.
  destruct (Ascii.eqb_spec c "010") as [->|_]; [discriminate Hlo|].
  destruct (Ascii.eqb_spec c "013") as [->|_]; [discriminate Hlo|].
  reflexivity.
Qed.

(** A value with no line break that does not start with a space is
    accepted. *)
Lemma header_value_valid_no_break (v : string) :
  starts_with_space v = false ->
  no_line_break v = true ->
  header_value_valid v = true.
Proof.
  intros Hsp Hnb. unfold header_value_valid.
  destruct v as [|c v]; [reflexivity|].
  rewrite Hsp, (no_line_break_before_end _ Hnb). reflexivity.
Qed.

Lemma basic_header_valid (s : string) :
  header_value_valid ("Basic " ++ b64encode s) = true.
Proof.
  apply header_value_valid_no_break; [reflexivity|].
  rewrite no_line_break_app, b64encode_no_break. reflexivity.
Qed.

Lemma bearer_header_valid (s : string) :
  printable_ascii s = true -> header_value_valid ("Bearer " ++ s) = true.
Proof.
  intros H. apply header_value_valid_no_break; [reflexivity|].
  rewrite no_line_break_app, (printable_no_line_break _ H). reflexivity.
Qed.

Lemma prepare_token_request (c : client) :
  prepare_request (token_request c) = None.
Proof.
  unfold prepare_request, token_request.
  cbn [req_headers req_body check_headers check_body].
  rewrite basic_header_valid. reflexivity.
Qed.

(** ** Payload construction *)

Lemma has_key_lookup (k : string) (d : pydict) :
  has_key k d = true -> exists v, dict_lookup k d = Some v.
Proof.
  unfold has_key. destruct (dict_lookup k d) as [v|]; [eauto | discriminate].
Qed.

Lemma dict_getitem_Return (d : pydict) (k : string) (v : pyval) :
  dict_getitem d k = Return v <-> dict_lookup k d = Some v.
Proof.
  unfold dict_getitem. destruct (dict_lookup k d); split; congruence.
Qed.

Lemma dict_getitem_Raise (d : pydict) (k : string) (e : exn) :
  dict_getitem d k = Raise e -> dict_lookup k d = None /\ e = KeyError k.
Proof.
  unfold dict_getitem. destruct (dict_lookup k d); intros H; inversion H; auto.
Qed.

Lemma rbind_Return {A B} (r : result A) (k : A -> result B) (b : B) :
  rbind r k = Return b -> exists a, r = Return a /\ k a = Return b.
Proof. destruct r; simpl; [eauto | discriminate]. Qed.

(** A line is produced only from a dict item that has an amount, and it
    is then the dict of source lines 93-103. *)
Lemma invoice_line_inv (d : pydict) (idx : Z) (item line : pyval) :
  invoice_line d idx item = Return line ->
  exists f amount,
    item = PDict f /\ dict_lookup "amount" f = Some amount /\
    line = PDict
      [ ("lineNumber", PInt (idx + 1));
        ("itemDescription", dict_get f "description" (PStr ""));
        ("amount", PDict [ ("amount", amount);
                           ("currency", dict_get d "currency" (PStr "USD")) ]);
        ("costCenter", dict_get f "cost_center" (PStr ""));
        ("projectReference", dict_get f "project_id" (PStr ""));
        ("accountCategory", dict_get f "account_category" (PStr "")) ].
Proof.
  unfold invoice_line. destruct item; simpl; try discriminate.
  unfold dict_getitem. destruct (dict_lookup "amount" d0) as [a|] eqn:Ha;
    simpl; [| discriminate].
  intros H. inversion H. exists d0, a. auto.
Qed.

(** The comprehension keeps length and order: the n-th line is built
    from the n-th item with index [idx + n]. *)
Lemma invoice_lines_inv (d : pydict) (items : list pyval) :
  forall (idx : Z) (lines : list pyval),
    invoice_lines d idx items = Return lines ->
    List.length lines = List.length items /\
    forall (n : nat) (item : pyval),
      nth_error items n = Some item ->
      exists line, nth_error lines n = Some line /\
                   invoice_line d (idx + Z.of_nat n) item = Return line.
Proof.
  induction items as [|item rest IH]; intros idx lines H; simpl in H.
  - inversion H. split; [reflexivity |]. intros [|n] it Hn; discriminate.
  - apply rbind_Return in H. destruct H as [line [Hline H]].
    apply rbind_Return in H. destruct H as [lines' [Hrest H]].
    inversion H; subst lines. destruct (IH _ _ Hrest) as [Hlen Hnth].
    split; [simpl; congruence |].
    intros [|n] it Hn; simpl in Hn.
    + inversion Hn; subst it. exists line. simpl.
      replace (idx + 0) with idx by lia. auto.
    + destruct (Hnth n it Hn) as [l [Hl Hi]]. exists l. simpl.
      replace (idx + Z.pos (Pos.of_succ_nat n)) with (idx + 1 + Z.of_nat n) by lia.
      auto.
Qed.

Lemma invoice_line_valid (d : pydict) (i : nat) (item : pyval) :
  valid_line_item item = true ->
  invoice_line d (Z.of_nat i) item
  = Return (spec_invoice_line (dict_get d "currency" (PStr "USD")) i item).
Proof.
  destruct item; simpl; try discriminate. intros H.
  apply has_key_lookup in H. destruct H as [a Ha].
  unfold invoice_line, spec_invoice_line, required, optional.
  simpl. unfold dict_getitem, dict_get. rewrite Ha. reflexivity.
Qed.

Lemma invoice_lines_valid (d : pydict) (items : list pyval) :
  forall i : nat,
    forallb valid_line_item items = true ->
    invoice_lines d (Z.of_nat i) items
    = Return (spec_invoice_lines (dict_get d "currency" (PStr "USD")) i items).
Proof.
  induction items as [|item rest IH]; intros i H; simpl in *; [reflexivity |].
  apply andb_true_iff in H. destruct H as [Hitem Hrest].
  rewrite (invoice_line_valid d i item Hitem). simpl.
  replace (Z.of_nat i + 1) with (Z.of_nat (S i)) by lia.
  rewrite (IH (S i) Hrest). reflexivity.
Qed.

Lemma formatted_invoice_valid (d : pydict) :
  valid_invoice_request d = true ->
  formatted_invoice d = Return (spec_invoice_payload d).
Proof.
  unfold valid_invoice_request. intros H.
  repeat (apply andb_true_iff in H; destruct H as [H ?]).
  repeat match goal with
         | K : has_key _ _ = true |- _ =>
             apply has_key_lookup in K; destruct K as [? K]
         end.
  destruct (dict_lookup "line_items" d) as [[| | | | |items| |]|] eqn:Hli;
    try discriminate.
  unfold formatted_invoice, spec_invoice_payload, required, optional,
    dict_getitem, dict_get, field.
  repeat match goal with K : dict_lookup _ _ = Some _ |- _ => rewrite K; clear K end.
  simpl. change 0 with (Z.of_nat 0).
  rewrite invoice_lines_valid by assumption. reflexivity.
Qed.

(** What a successfully built invoice payload looks like. *)
Lemma formatted_invoice_inv (d : pydict) (p : pyval) :
  formatted_invoice d = Return p ->
  exists supplier_id invoice_number invoice_date total_amount line_items
         items lines,
    dict_lookup "supplier_id" d = Some supplier_id /\
    dict_lookup "invoice_number" d = Some invoice_number /\
    dict_lookup "invoice_date" d = Some invoice_date /\
    dict_lookup "total_amount" d = Some total_amount /\
    dict_lookup "line_items" d = Some line_items /\
    py_iter line_items = Return items /\
    invoice_lines d 0 items = Return lines /\
    p = PDict
      [ ("supplierReference", supplier_id);
        ("invoiceNumber", invoice_number);
        ("invoiceDate", invoice_date);
        ("invoiceDescription", dict_get d "description" (PStr ""));
        ("invoiceTotal", PDict [ ("amount", total_amount);
                                 ("currency", dict_get d "currency" (PStr "USD")) ]);
        ("invoiceLines", PList lines) ].
Proof.
  unfold formatted_invoice. intros H.
  repeat (apply rbind_Return in H;
          let a := fresh "a" in let Ha := fresh "Ha" in
          destruct H as [a [Ha H]];
          try (apply dict_getitem_Return in Ha)).
  inversion H. do 7 eexists. repeat split; eassumption.
Qed.

Lemma formatted_payment_valid (d : pydict) :
  valid_payment_request d = true ->
  formatted_payment d = Return (spec_payment_payload d).
Proof.
  unfold valid_payment_request. intros H.
  repeat (apply andb_true_iff in H; destruct H as [H ?]).
  repeat match goal with
         | K : has_key _ _ = true |- _ =>
             apply has_key_lookup in K; destruct K as [? K]
         end.
  unfold formatted_payment, spec_payment_payload, required, optional,
    dict_getitem, dict_get, field.
  repeat match goal with K : dict_lookup _ _ = Some _ |- _ => rewrite K; clear K end.
  reflexivity.
Qed.

Lemma formatted_payment_inv (d : pydict) (p : pyval) :
  formatted_payment d = Return p ->
  exists payment_date payment_method amount,
    dict_lookup "payment_date" d = Some payment_date /\
    dict_lookup "payment_method" d = Some payment_method /\
    dict_lookup "amount" d = Some amount /\
    p = PDict
      [ ("paymentDate", payment_date);
        ("paymentMethod", payment_method);
        ("paymentAmount", PDict [ ("amount", amount);
                                  ("currency", dict_get d "currency" (PStr "USD")) ]);
        ("paymentReference", dict_get d "reference" (PStr "")) ].
Proof.
  unfold formatted_payment. intros H.
  repeat (apply rbind_Return in H;
          let a := fresh "a" in let Ha := fresh "Ha" in
          destruct H as [a [Ha H]];
          try (apply dict_getitem_Return in Ha)).
  inversion H. do 3 eexists. repeat split; eassumption.
Qed.

(** ** Token acquisition *)

Ltac unfold_monad :=
  unfold try_except_RequestException, requests_send, raise_for_status,
    response_json, log_error_response, set_token, set_token_expiry,
    datetime_now, logger_error, logger_info, logger_write, get_self, lift,
    bind, ret, raise in *.

(** The cache check reads the object and the clock and changes nothing. *)
Lemma token_is_fresh_state (c : client) (w : world) :
  exists r, token_is_fresh c w = (r, c, w).
Proof.
  unfold token_is_fresh. unfold_monad.
  destruct (truthy (token c) && truthy (token_expiry c)); eauto.
Qed.

Lemma token_is_fresh_absent (c : client) (w : world) :
  truthy (token c) && truthy (token_expiry c) = false ->
  token_is_fresh c w = (Return false, c, w).
Proof.
  intros H. unfold token_is_fresh. unfold_monad. rewrite H. reflexivity.
Qed.

Lemma token_is_fresh_datetime (c : client) (w : world) (t : Q) :
  truthy (token c) = true -> token_expiry c = PDatetime t ->
  token_is_fresh c w = (Return (negb (Qle_bool t (clock w))), c, w).
Proof.
  intros Ht He. unfold token_is_fresh. unfold_monad. rewrite Ht, He.
  reflexivity.
Qed.

(** A truthy token with a truthy expiry that is not a datetime: the
    comparison of source line 33 raises. *)
Lemma token_is_fresh_not_datetime (c : client) (w : world) :
  truthy (token c) = true -> truthy (token_expiry c) = true ->
  (forall t, token_expiry c <> PDatetime t) ->
  token_is_fresh c w
  = (Raise (TypeError ("'>' not supported between instances of '"
                       ++ type_name (token_expiry c)
                       ++ "' and 'datetime.datetime'")), c, w).
Proof.
  intros Ht He Hd. unfold token_is_fresh. unfold_monad. rewrite Ht, He.
  simpl. destruct (token_expiry c); try reflexivity.
  exfalso. eapply Hd. reflexivity.
Qed.

Lemma get_auth_token_hit (net : nat -> net_reply) (c : client) (w : world) :
  token_is_fresh c w = (Return true, c, w) ->
  get_auth_token net c w = (Return (token c), c, w).
Proof.
  intros H. unfold get_auth_token. unfold bind at 1. rewrite H. reflexivity.
Qed.

Lemma get_auth_token_check_raises (net : nat -> net_reply) (c : client)
    (w : world) (e : exn) :
  token_is_fresh c w = (Raise e, c, w) ->
  get_auth_token net c w = (Raise e, c, w).
Proof.
  intros H. unfold get_auth_token. unfold bind at 1. rewrite H. reflexivity.
Qed.

(** The refresh fails: one request, one error record, the object as it
    was, and a plain [Exception] that quotes and chains the cause. *)
Lemma get_auth_token_failure (net : nat -> net_reply) (c : client) (w : world)
    (msg : string) (resp : option response) :
  token_is_fresh c w = (Return false, c, w) ->
  reply_failure (net (List.length (sent w))) = Some (msg, resp) ->
  get_auth_token net c w
  = (Raise (PyException ("Failed to authenticate with Workday: " ++ msg)
                        (Some (RequestException msg resp))),
     c,
     mkWorld (clock w + latency (net (List.length (sent w))))
             (sent w ++ [token_request c])
             (log w ++ [mkLog ERROR ("Authentication error: " ++ msg)])).
Proof.
  intros Hf Hr. unfold get_auth_token. unfold bind at 1. rewrite Hf.
  unfold reply_failure in Hr. unfold_monad. rewrite prepare_token_request.
  destruct (outcome (net (List.length (sent w)))) as [m r|r].
  - inversion Hr; subst. reflexivity.
  - destruct (response_ok r).
    + destruct (json_body r); [discriminate|]. inversion Hr; subst. reflexivity.
    + inversion Hr; subst. reflexivity.
Qed.

(** The refresh succeeds: one request, the token and the expiry stored,
    the token returned. *)
Lemma get_auth_token_refresh (net : nat -> net_reply) (c : client) (w : world)
    (r : response) (token_data access_token expires_in expiry : pyval) :
  token_is_fresh c w = (Return false, c, w) ->
  outcome (net (List.length (sent w))) = NetResponse r ->
  response_ok r = true ->
  json_body r = Some token_data ->
  py_getitem token_data "access_token" = Return access_token ->
  py_getitem token_data "expires_in" = Return expires_in ->
  py_float_add (clock w + latency (net (List.length (sent w)))) expires_in
  = Return expiry ->
  get_auth_token net c w
  = (Return access_token,
     mkClient (tenant_url c) (client_id c) (client_secret c)
              access_token expiry,
     mkWorld (clock w + latency (net (List.length (sent w))))
             (sent w ++ [token_request c]) (log w)).
Proof.
  intros Hf Ho Hok Hj Ha He Hx. unfold get_auth_token. unfold bind at 1.
  rewrite Hf. unfold_monad. rewrite prepare_token_request.
  rewrite Ho, Hok, Hj, Ha. cbn [tenant_url client_id client_secret token token_expiry clock sent log].
  rewrite He, Hx. reflexivity.
Qed.

(** Whatever happens, [get_auth_token] sends nothing or the one token
    request, and never touches the three credentials. *)
Lemma get_auth_token_effects (net : nat -> net_reply) (c : client) (w : world) :
  (sent (world_of (get_auth_token net c w)) = sent w \/
   sent (world_of (get_auth_token net c w))
   = (sent w ++ [token_request c])%list) /\
  tenant_url (client_of (get_auth_token net c w)) = tenant_url c /\
  client_id (client_of (get_auth_token net c w)) = client_id c /\
  client_secret (client_of (get_auth_token net c w)) = client_secret c.
Proof.
  destruct (token_is_fresh_state c w) as [[[|]|e] Hf].
  - rewrite (get_auth_token_hit net c w Hf). simpl. auto.
  - unfold get_auth_token, bind. rewrite Hf. unfold_monad.
    rewrite prepare_token_request.
    destruct (outcome (net (List.length (sent w)))) as [m r|r];
      [cbn; auto |].
    destruct (response_ok r); [| cbn; auto].
    destruct (json_body r) as [j|]; [| cbn; auto].
    destruct (py_getitem j "access_token") as [a|[]]; cbn; auto.
    destruct (py_getitem j "expires_in") as [x|[]]; cbn; auto.
    destruct (py_float_add _ x) as [y|[]]; cbn; auto.
  - rewrite (get_auth_token_check_raises net c w e Hf). simpl. auto.
Qed.

(** ** The three operations behind the token *)

Lemma operation_payload_create_Return (d : pydict) (p : option pyval) :
  operation_payload (OpCreateInvoice d) = Return p ->
  exists q, p = Some q /\ formatted_invoice d = Return q.
Proof.
  simpl. destruct (formatted_invoice d) as [q|]; simpl; intros H;
    inversion H; eauto.
Qed.

Lemma operation_payload_create_Raise (d : pydict) (e : exn) :
  operation_payload (OpCreateInvoice d) = Raise e ->
  formatted_invoice d = Raise e.
Proof.
  simpl. destruct (formatted_invoice d); simpl; intros H; inversion H; auto.
Qed.

Lemma operation_payload_payment_Return (i : pyval) (d : pydict)
    (p : option pyval) :
  operation_payload (OpUpdateInvoicePayment i d) = Return p ->
  exists q, p = Some q /\ formatted_payment d = Return q.
Proof.
  simpl. destruct (formatted_payment d) as [q|]; simpl; intros H;
    inversion H; eauto.
Qed.

Lemma operation_payload_payment_Raise (i : pyval) (d : pydict) (e : exn) :
  operation_payload (OpUpdateInvoicePayment i d) = Raise e ->
  formatted_payment d = Raise e.
Proof.
  simpl. destruct (formatted_payment d); simpl; intros H; inversion H; auto.
Qed.

(** A failure of [get_auth_token] leaves every operation as it leaves
    [get_auth_token]. *)
Lemma run_operation_auth_raises (py_str : pyval -> string)
    (net : nat -> net_reply) (op : operation) (c c' : client) (w w' : world)
    (e : exn) :
  get_auth_token net c w = (Raise e, c', w') ->
  run_operation py_str net op c w = (Raise e, c', w').
Proof.
  intros H. destruct op; simpl; [assumption | | |];
    unfold create_invoice, get_invoice_status, update_invoice_payment, bind;
    rewrite H; reflexivity.
Qed.

(** With the token in hand, a payload that cannot be built raises its
    error as it is, and nothing more happens. *)
Lemma run_operation_payload_raises (py_str : pyval -> string)
    (net : nat -> net_reply) (op : operation) (c c' : client) (w w' : world)
    (tok : pyval) (e : exn) :
  get_auth_token net c w = (Return tok, c', w') ->
  operation_payload op = Raise e ->
  run_operation py_str net op c w = (Raise e, c', w').
Proof.
  intros H Hp. destruct op; try discriminate.
  - apply operation_payload_create_Raise in Hp. simpl.
    unfold create_invoice, bind. rewrite H. unfold get_self, lift.
    rewrite Hp. reflexivity.
  - apply operation_payload_payment_Raise in Hp. simpl.
    unfold update_invoice_payment, bind. rewrite H. unfold get_self, lift.
    rewrite Hp. reflexivity.
Qed.

(** With a printable token the headers of an operation's request are
    accepted, and what is left of the library's checks is the one on the
    payload. *)
Lemma prepare_operation_request_body (py_str : pyval -> string)
    (op : operation) (c : client) (tok : pyval) (p : option pyval) :
  is_post_auth op = true ->
  printable_ascii (py_str tok) = true ->
  prepare_request (operation_request py_str op c tok p)
  = check_body (json_body_of p).
Proof.
  intros Hpost Hhdr. pose proof (bearer_header_valid _ Hhdr) as Hv.
  destruct op; try discriminate; unfold prepare_request;
    cbn [operation_request req_headers req_body check_headers];
    rewrite Hv; reflexivity.
Qed.

(** A printable token and a payload without a datetime make a request
    that the library accepts. *)
Lemma prepare_operation_request (py_str : pyval -> string) (op : operation)
    (c : client) (tok : pyval) (p : option pyval) :
  is_post_auth op = true ->
  printable_ascii (py_str tok) = true ->
  payload_serializable p = true ->
  prepare_request (operation_request py_str op c tok p) = None.
Proof.
  intros Hpost Hhdr Hjson.
  rewrite (prepare_operation_request_body py_str op c tok p Hpost Hhdr).
  destruct p as [p|]; cbn [json_body_of check_body payload_serializable] in *;
    rewrite ?Hjson; reflexivity.
Qed.

(** With the token and the payload, the operation sends its one request,
    if the library accepts it, whatever comes back. *)
Lemma run_operation_sends (py_str : pyval -> string)
    (net : nat -> net_reply) (op : operation) (c c' : client) (w w' : world)
    (tok : pyval) (p : option pyval) :
  get_auth_token net c w = (Return tok, c', w') ->
  is_post_auth op = true ->
  operation_payload op = Return p ->
  prepare_request (operation_request py_str op c' tok p) = None ->
  client_of (run_operation py_str net op c w) = c' /\
  sent (world_of (run_operation py_str net op c w))
  = (sent w' ++ [operation_request py_str op c' tok p])%list.
Proof.
  intros H Hpost Hp Hacc.
  destruct op; try discriminate; simpl run_operation.
  - apply operation_payload_create_Return in Hp.
    destruct Hp as [q [-> Hp]]. cbn [operation_request json_body_of] in Hacc.
    unfold create_invoice, bind. rewrite H. unfold get_self, lift.
    rewrite Hp. unfold_monad. rewrite Hacc.
    destruct (outcome (net (List.length (sent w')))) as [m r|r];
      [destruct r as [r|]; [destruct (response_ok r) |]; cbn; auto |].
    destruct (response_ok r) eqn:Hok; [| cbn; rewrite Hok; cbn; auto].
    destruct (json_body r) as [j|]; [| cbn; auto].
    destruct (dict_getitem invoice_data "invoice_number") as [x|[]]; cbn; auto.
    destruct resp as [r'|]; [destruct (response_ok r') |]; cbn; auto.
  - simpl in Hp. inversion Hp; subst p.
    cbn [operation_request json_body_of] in Hacc.
    unfold get_invoice_status, bind. rewrite H. unfold_monad. rewrite Hacc.
    destruct (outcome (net (List.length (sent w')))) as [m r|r];
      [cbn; auto |].
    destruct (response_ok r); [| cbn; auto].
    destruct (json_body r) as [j|]; cbn; auto.
  - apply operation_payload_payment_Return in Hp.
    destruct Hp as [q [-> Hp]]. cbn [operation_request json_body_of] in Hacc.
    unfold update_invoice_payment, bind. rewrite H. unfold get_self, lift.
    rewrite Hp. unfold_monad. rewrite Hacc.
    destruct (outcome (net (List.length (sent w')))) as [m r|r];
      [cbn; auto |].
    destruct (response_ok r); [| cbn; auto].
    destruct (json_body r) as [j|]; cbn; auto.
Qed.

(** With the token and the payload, a failed exchange is logged and
    raised as a plain [Exception] that quotes and chains the cause. *)
Lemma run_operation_exchange_fails (py_str : pyval -> string)
    (net : nat -> net_reply) (op : operation) (c c' : client) (w w' : world)
    (tok : pyval) (p : option pyval) (msg : string) (resp : option response) :
  get_auth_token net c w = (Return tok, c', w') ->
  is_post_auth op = true ->
  operation_payload op = Return p ->
  prepare_request (operation_request py_str op c' tok p) = None ->
  reply_failure (net (List.length (sent w'))) = Some (msg, resp) ->
  result_of (run_operation py_str net op c w)
  = Raise (PyException (failure_prefix op ++ msg)
                       (Some (RequestException msg resp))) /\
  In (mkLog ERROR (error_record_prefix op ++ msg))
     (log (world_of (run_operation py_str net op c w))).
Proof.
  intros H Hpost Hp Hacc Hr. unfold reply_failure in Hr.
  destruct op; try discriminate; simpl run_operation.
  - apply operation_payload_create_Return in Hp.
    destruct Hp as [q [-> Hp]]. cbn [operation_request json_body_of] in Hacc.
    unfold create_invoice, bind. rewrite H. unfold get_self, lift.
    rewrite Hp. unfold_monad. rewrite Hacc.
    destruct (outcome (net (List.length (sent w')))) as [m r|r].
    + inversion Hr; subst m r.
      destruct resp as [r|]; [destruct (response_ok r) |];
        cbn; rewrite ?in_app_iff; cbn; auto.
    + destruct (response_ok r) eqn:Hok.
      * destruct (json_body r) as [j|]; [discriminate |].
        inversion Hr; subst msg resp. cbn. rewrite ?in_app_iff. cbn. auto.
      * inversion Hr; subst msg resp. cbn. rewrite Hok. cbn.
        rewrite ?in_app_iff. cbn. auto.
  - simpl in Hp. inversion Hp; subst p.
    cbn [operation_request json_body_of] in Hacc.
    unfold get_invoice_status, bind. rewrite H. unfold_monad. rewrite Hacc.
    destruct (outcome (net (List.length (sent w')))) as [m r|r].
    + inversion Hr; subst m r. cbn. rewrite ?in_app_iff. cbn. auto.
    + destruct (response_ok r) eqn:Hok.
      * destruct (json_body r) as [j|]; [discriminate |].
        inversion Hr; subst msg resp. cbn. rewrite ?in_app_iff. cbn. auto.
      * inversion Hr; subst msg resp. cbn. rewrite ?in_app_iff. cbn. auto.
  - apply operation_payload_payment_Return in Hp.
    destruct Hp as [q [-> Hp]]. cbn [operation_request json_body_of] in Hacc.
    unfold update_invoice_payment, bind. rewrite H. unfold get_self, lift.
    rewrite Hp. unfold_monad. rewrite Hacc.
    destruct (outcome (net (List.length (sent w')))) as [m r|r].
    + inversion Hr; subst m r. cbn. rewrite ?in_app_iff. cbn. auto.
    + destruct (response_ok r) eqn:Hok.
      * destruct (json_body r) as [j|]; [discriminate |].
        inversion Hr; subst msg resp. cbn. rewrite ?in_app_iff. cbn. auto.
      * inversion Hr; subst msg resp. cbn. rewrite ?in_app_iff. cbn. auto.
Qed.

(** What the library raises while it prepares a request is an
    [InvalidHeader] or the [TypeError] of [json.dumps]. *)
Lemma check_headers_refusal (headers : list (string * string)) (e : exn) :
  check_headers headers = Some e -> exists msg, e = RequestException msg None.
Proof.
  induction headers as [|[name value] rest IH]; cbn [check_headers];
    [discriminate |].
  destruct (header_name_valid name); cbn [negb].
  - destruct (header_value_valid value); cbn [negb]; [exact IH |].
    intros H. inversion H. unfold invalid_header. eauto.
  - intros H. inversion H. unfold invalid_header. eauto.
Qed.

Lemma prepare_request_refusal (req : http_request) (e : exn) :
  prepare_request req = Some e ->
  (exists msg, e = RequestException msg None) \/
  e = TypeError "Object of type datetime is not JSON serializable".
Proof.
  unfold prepare_request.
  destruct (check_headers (req_headers req)) as [e'|] eqn:Hh.
  - intros H. inversion H; subst e'. left.
    exact (check_headers_refusal _ _ Hh).
  - unfold check_body. destruct (req_body req) as [| |v]; try discriminate.
    destruct (json_serializable v); [discriminate |].
    intros H. inversion H. right. reflexivity.
Qed.

(** With the token and the payload, a request that the library refuses
    is not sent: a refused header is logged and raised as a failure of
    the exchange, the [TypeError] of the payload is raised as it is. *)
Lemma run_operation_refused (py_str : pyval -> string)
    (net : nat -> net_reply) (op : operation) (c c' : client) (w w' : world)
    (tok : pyval) (p : option pyval) (e : exn) :
  get_auth_token net c w = (Return tok, c', w') ->
  is_post_auth op = true ->
  operation_payload op = Return p ->
  prepare_request (operation_request py_str op c' tok p) = Some e ->
  (exists msg,
     e = RequestException msg None /\
     run_operation py_str net op c w
     = (Raise (PyException (failure_prefix op ++ msg)
                           (Some (RequestException msg None))),
        c',
        mkWorld (clock w') (sent w')
          (log w' ++ [mkLog ERROR (error_record_prefix op ++ msg)]))) \/
  (e = TypeError "Object of type datetime is not JSON serializable" /\
   run_operation py_str net op c w = (Raise e, c', w')).
Proof.
  intros H Hpost Hp Hacc.
  destruct (prepare_request_refusal _ _ Hacc) as [[msg ->] | ->];
    [left; exists msg; split; [reflexivity |] | right; split; [reflexivity |]];
    (destruct op; try discriminate; simpl run_operation;
     [ apply operation_payload_create_Return in Hp;
       destruct Hp as [q [-> Hp]];
       cbn [operation_request json_body_of] in Hacc;
       unfold create_invoice, bind; rewrite H; unfold get_self, lift;
       rewrite Hp; unfold_monad; rewrite Hacc; reflexivity
     | simpl in Hp; inversion Hp; subst p;
       cbn [operation_request json_body_of] in Hacc;
       unfold get_invoice_status, bind; rewrite H; unfold_monad;
       rewrite Hacc; reflexivity
     | apply operation_payload_payment_Return in Hp;
       destruct Hp as [q [-> Hp]];
       cbn [operation_request json_body_of] in Hacc;
       unfold update_invoice_payment, bind; rewrite H;
       unfold get_self, lift; rewrite Hp; unfold_monad; rewrite Hacc;
       reflexivity ]).
Qed.

(** ** Requests with a missing required field *)

Lemma invoice_lines_missing_amount (d : pydict) (items : list pyval) :
  forall idx : Z,
    forallb is_dict items = true ->
    forallb valid_line_item items = false ->
    invoice_lines d idx items = Raise (KeyError "amount").
Proof.
  induction items as [|item rest IH]; intros idx Hd Hv; simpl in *;
    [discriminate |].
  apply andb_true_iff in Hd. destruct Hd as [Hitem Hrest].
  destruct item; try discriminate. unfold invoice_line. simpl.
  unfold dict_getitem. simpl in Hv. unfold has_key in Hv.
  destruct (dict_lookup "amount" d0) as [a|]; simpl; [| reflexivity].
  simpl in Hv. rewrite (IH (idx + 1) Hrest Hv). reflexivity.
Qed.

Lemma missing_invoice_field_KeyError (d : pydict) :
  missing_invoice_field d = true ->
  exists k, formatted_invoice d = Raise (KeyError k).
Proof.
  unfold missing_invoice_field, formatted_invoice, invoice_required_keys,
    dict_getitem, has_key. simpl forallb.
  destruct (dict_lookup "supplier_id" d); simpl; [| eauto].
  destruct (dict_lookup "invoice_number" d); simpl; [| eauto].
  destruct (dict_lookup "invoice_date" d); simpl; [| eauto].
  destruct (dict_lookup "total_amount" d); simpl; [| eauto].
  destruct (dict_lookup "line_items" d) as [li|]; simpl; [| eauto].
  destruct li; try discriminate. intros H.
  apply andb_true_iff in H. destruct H as [Hd Hv].
  apply negb_true_iff in Hv. simpl.
  rewrite (invoice_lines_missing_amount d l 0 Hd Hv). simpl. eauto.
Qed.

Lemma missing_payment_field_KeyError (d : pydict) :
  missing_payment_field d = true ->
  exists k, formatted_payment d = Raise (KeyError k).
Proof.
  unfold missing_payment_field, formatted_payment, payment_required_keys,
    dict_getitem, has_key. simpl forallb.
  destruct (dict_lookup "payment_date" d); simpl; [| eauto].
  destruct (dict_lookup "payment_method" d); simpl; [| eauto].
  destruct (dict_lookup "amount" d); simpl; [discriminate | eauto].
Qed.

Lemma operation_missing_field_KeyError (op : operation) :
  operation_missing_field op = true ->
  exists k, operation_payload op = Raise (KeyError k).
Proof.
  destruct op; simpl; try discriminate; intros H.
  - destruct (missing_invoice_field_KeyError _ H) as [k Hk].
    exists k. rewrite Hk. reflexivity.
  - destruct (missing_payment_field_KeyError _ H) as [k Hk].
    exists k. rewrite Hk. reflexivity.
Qed.


(** ** Claims on token caching *)

(** The first refresh of the sample client. *)
Lemma sample_refresh :
  get_auth_token net_ok sample_client sample_world
  = (Return (PStr "tok"), refreshed_client,
     mkWorld 1001 [token_request sample_client] []).
Proof. vm_compute. reflexivity. Qed.

(** A token cached with a float expiry can never be served from the
    cache: whatever the clock says, the check raises. *)
Lemma get_auth_token_float_expiry (net : nat -> net_reply) (c : client)
    (w : world) (x : Q) :
  truthy (token c) = true ->
  token_expiry c = PFloat x ->
  Qeq_bool x 0 = false ->
  get_auth_token net c w
  = (Raise (TypeError
      "'>' not supported between instances of 'float' and 'datetime.datetime'"),
     c, w).
Proof.
  intros Ht He Hx. apply get_auth_token_check_raises.
  rewrite (token_is_fresh_not_datetime c w Ht).
  - rewrite He. reflexivity.
  - rewrite He. simpl. rewrite Hx. reflexivity.
  - rewrite He. discriminate.
Qed.

(** A token cached with a datetime expiry in the future is served from
    the cache, with no request. *)
Lemma get_auth_token_datetime_hit (net : nat -> net_reply) (c : client)
    (w : world) (t : Q) :
  truthy (token c) = true ->
  token_expiry c = PDatetime t ->
  (clock w < t)%Q ->
  get_auth_token net c w = (Return (token c), c, w).
Proof.
  intros Ht He Hlt. apply get_auth_token_hit.
  rewrite (token_is_fresh_datetime c w t Ht He).
  destruct (Qle_bool t (clock w)) eqn:Hle; [| reflexivity].
  apply Qle_bool_iff in Hle. exfalso. apply (Qlt_not_le _ _ Hlt Hle).
Qed.

(** With no token cached, a well-formed reply of the token endpoint is
    stored and returned, after exactly the one request of the
    specification. *)
Lemma get_auth_token_no_token_refreshes (net : nat -> net_reply) (c : client)
    (w : world) (r : response) (d : pydict) (access_token : pyval) (n : Z) :
  truthy (token c) = false ->
  outcome (net (List.length (sent w))) = NetResponse r ->
  response_ok r = true ->
  json_body r = Some (PDict d) ->
  dict_lookup "access_token" d = Some access_token ->
  dict_lookup "expires_in" d = Some (PInt n) ->
  get_auth_token net c w
  = (Return access_token,
     mkClient (tenant_url c) (client_id c) (client_secret c) access_token
       (PFloat (clock w + latency (net (List.length (sent w))) + inject_Z n)),
     mkWorld (clock w + latency (net (List.length (sent w))))
       (sent w ++
        [ mkRequest POST (tenant_url c ++ "/ccx/oauth2/token")
            [ ("Authorization",
               "Basic " ++ b64encode (client_id c ++ ":" ++ client_secret c));
              ("Content-Type", "application/x-www-form-urlencoded") ]
            (FormData [ ("grant_type", "client_credentials");
                        ("scope", "workday_api") ]) ])
       (log w)).
Proof.
  intros Ht Ho Hok Hj Ha He.
  apply (get_auth_token_refresh net c w r (PDict d) access_token (PInt n));
    auto.
  - apply token_is_fresh_absent. rewrite Ht. reflexivity.
  - simpl. unfold dict_getitem. rewrite Ha. reflexivity.
  - simpl. unfold dict_getitem. rewrite He. reflexivity.
Qed.

(** C1 (fails on the code).  The specification promises a cache hit
    whenever a token is cached and its expiry is strictly in the future.
    Evaluated on the state that the client's own refresh produces: the
    first call, at time 1000, stores the token with the float expiry
    4601; the second call, at time 1001 < 4601, does not return the
    cached token but raises the [TypeError] of comparing a float with a
    datetime (source line 33 against line 56). *)
Theorem C1_cached_token_not_returned :
  get_auth_token net_ok sample_client sample_world
  = (Return (PStr "tok"), refreshed_client,
     mkWorld 1001 [token_request sample_client] []) /\
  token refreshed_client = PStr "tok" /\
  token_expiry refreshed_client = PFloat 4601 /\
  (1001 < 4601)%Q /\
  get_auth_token net_ok refreshed_client
    (mkWorld 1001 [token_request sample_client] [])
  = (Raise (TypeError
      "'>' not supported between instances of 'float' and 'datetime.datetime'"),
     refreshed_client,
     mkWorld 1001 [token_request sample_client] []).
Proof.
  split; [exact sample_refresh |].
  do 3 (split; [reflexivity |]).
  apply get_auth_token_float_expiry with (x := 4601%Q); reflexivity.
Qed.

(** C2 (fails on the code).  The specification promises one POST to the
    token endpoint whenever the cached expiry is in the past.  Evaluated
    on the refreshed client at time 5000 > 4601: no request is sent, the
    object keeps the expired token, and the call raises the same
    [TypeError]. *)
Theorem C2_expired_token_not_refreshed :
  (4601 < 5000)%Q /\
  get_auth_token net_ok refreshed_client (mkWorld 5000 [] [])
  = (Raise (TypeError
      "'>' not supported between instances of 'float' and 'datetime.datetime'"),
     refreshed_client, mkWorld 5000 [] []) /\
  new_requests (mkWorld 5000 [] [])
    (world_of (get_auth_token net_ok refreshed_client (mkWorld 5000 [] [])))
  = [].
Proof.
  assert (H : get_auth_token net_ok refreshed_client (mkWorld 5000 [] [])
              = (Raise (TypeError
      "'>' not supported between instances of 'float' and 'datetime.datetime'"),
                 refreshed_client, mkWorld 5000 [] [])).
  { apply get_auth_token_float_expiry with (x := 4601%Q); reflexivity. }
  split; [reflexivity |]. split; [exact H |]. rewrite H. reflexivity.
Qed.


(** ** Claims on failures *)

(** C3 (as the code has it).  No failure is swallowed, but the errors
    are not typed per operation.  For every operation:
    - a failed token request reaches the caller as a plain [Exception]
      whose message is "Failed to authenticate with Workday: " followed
      by the text of the cause, with the cause chained;
    - once the token is there, a request that lacks a required field
      reaches the caller as the bare [KeyError] of the lookup;
    - once the token and the payload are there, and they make a request
      that [requests] accepts (the text of the token is printable ASCII,
      the payload holds no datetime), a failure of the operation's own
      exchange reaches the caller as a plain [Exception] whose message
      is the operation's own prefix followed by the text of the cause,
      with the cause chained. *)
Theorem C3_failures_surface_untyped (py_str : pyval -> string)
    (net : nat -> net_reply) (op : operation) (c : client) (w : world) :
  (forall msg resp,
     token_is_fresh c w = (Return false, c, w) ->
     reply_failure (net (List.length (sent w))) = Some (msg, resp) ->
     result_of (run_operation py_str net op c w)
     = Raise (PyException ("Failed to authenticate with Workday: " ++ msg)
                          (Some (RequestException msg resp)))) /\
  (forall tok c' w',
     get_auth_token net c w = (Return tok, c', w') ->
     (operation_missing_field op = true ->
      exists k, result_of (run_operation py_str net op c w)
                = Raise (KeyError k)) /\
     (forall p msg resp,
        is_post_auth op = true ->
        operation_payload op = Return p ->
        printable_ascii (py_str tok) = true ->
        payload_serializable p = true ->
        reply_failure (net (List.length (sent w'))) = Some (msg, resp) ->
        result_of (run_operation py_str net op c w)
        = Raise (PyException (failure_prefix op ++ msg)
                             (Some (RequestException msg resp))))).
Proof.
  split.
  - intros msg resp Hf Hr.
    rewrite (run_operation_auth_raises py_str net op c _ w _ _
               (get_auth_token_failure net c w msg resp Hf Hr)).
    reflexivity.
  - intros tok c' w' Hauth. split.
    + intros Hm. destruct (operation_missing_field_KeyError op Hm) as [k Hk].
      exists k.
      rewrite (run_operation_payload_raises py_str net op c _ w _ _ _ Hauth Hk).
      reflexivity.
    + intros p msg resp Hpost Hp Hhdr Hjson Hr.
      apply (run_operation_exchange_fails py_str net op c _ w _ _ _ _ _
               Hauth Hpost Hp
               (prepare_operation_request py_str op c' tok p Hpost Hhdr Hjson)
               Hr).
Qed.

(** C10.  Both operations that build a payload ask for the token first.
    For a request that lacks a required field, the run is the run of
    [get_auth_token] (with its request to the token endpoint, if it makes
    one) followed by nothing but the [KeyError] of the missing field; if
    [get_auth_token] itself fails, its failure is the outcome.  The
    invoice and payment endpoints are not contacted: what is sent is what
    [get_auth_token] sends, nothing or the one token request. *)
Theorem C10_token_before_required_fields (py_str : pyval -> string)
    (net : nat -> net_reply) (c : client) (w : world)
    (invoice_data : pydict) (invoice_id : pyval) (payment_data : pydict) :
  missing_invoice_field invoice_data = true ->
  missing_payment_field payment_data = true ->
  (exists k,
     create_invoice py_str net invoice_data c w
     = (match result_of (get_auth_token net c w) with
        | Return _ => Raise (KeyError k)
        | Raise e => Raise e
        end,
        client_of (get_auth_token net c w),
        world_of (get_auth_token net c w))) /\
  (exists k,
     update_invoice_payment py_str net invoice_id payment_data c w
     = (match result_of (get_auth_token net c w) with
        | Return _ => Raise (KeyError k)
        | Raise e => Raise e
        end,
        client_of (get_auth_token net c w),
        world_of (get_auth_token net c w))) /\
  (sent (world_of (get_auth_token net c w)) = sent w \/
   sent (world_of (get_auth_token net c w))
   = (sent w ++ [token_request c])%list).
Proof.
  intros Hi Hp.
  destruct (missing_invoice_field_KeyError _ Hi) as [ki Hki].
  destruct (missing_payment_field_KeyError _ Hp) as [kp Hkp].
  split; [| split; [| apply get_auth_token_effects]].
  - exists ki.
    destruct (get_auth_token net c w) as [[[tok|e] c'] w'] eqn:Hauth.
    + apply (run_operation_payload_raises py_str net
               (OpCreateInvoice invoice_data) c _ w _ _ _ Hauth).
      simpl. rewrite Hki. reflexivity.
    + apply (run_operation_auth_raises py_str net
               (OpCreateInvoice invoice_data) c _ w _ _ Hauth).
  - exists kp.
    destruct (get_auth_token net c w) as [[[tok|e] c'] w'] eqn:Hauth.
    + apply (run_operation_payload_raises py_str net
               (OpUpdateInvoicePayment invoice_id payment_data) c _ w _ _ _ Hauth).
      simpl. rewrite Hkp. reflexivity.
    + apply (run_operation_auth_raises py_str net
               (OpUpdateInvoicePayment invoice_id payment_data) c _ w _ _ Hauth).
Qed.

(** ** Claims on the wire payloads *)

(** Whenever the comprehension goes through, its lines are those of the
    section 6 table. *)
Lemma invoice_lines_Return_spec (d : pydict) (items : list pyval) :
  forall (i : nat) (lines : list pyval),
    invoice_lines d (Z.of_nat i) items = Return lines ->
    lines = spec_invoice_lines (dict_get d "currency" (PStr "USD")) i items.
Proof.
  induction items as [|item rest IH]; intros i lines H; simpl in H.
  - inversion H. reflexivity.
  - apply rbind_Return in H. destruct H as [line [Hline H]].
    apply rbind_Return in H. destruct H as [lines' [Hrest H]].
    inversion H; subst lines. clear H.
    replace (Z.of_nat i + 1) with (Z.of_nat (S i)) in Hrest by lia.
    rewrite (IH (S i) lines' Hrest).
    apply invoice_line_inv in Hline.
    destruct Hline as [f [a [-> [Ha ->]]]].
    simpl. unfold spec_invoice_line, required, optional, dict_get. simpl.
    rewrite Ha. reflexivity.
Qed.

Lemma invoice_lines_Return_valid (d : pydict) (items : list pyval) :
  forall (idx : Z) (lines : list pyval),
    invoice_lines d idx items = Return lines ->
    forallb valid_line_item items = true.
Proof.
  induction items as [|item rest IH]; intros idx lines H; simpl in *;
    [reflexivity |].
  apply rbind_Return in H. destruct H as [line [Hline H]].
  apply rbind_Return in H. destruct H as [lines' [Hrest H]].
  apply invoice_line_inv in Hline. destruct Hline as [f [a [-> [Ha _]]]].
  simpl. unfold has_key. rewrite Ha. simpl. eapply IH. eassumption.
Qed.

(** Only a list can be iterated into line items that are all dicts,
    unless there is no item at all. *)
Lemma py_iter_valid_items (line_items : pyval) (items : list pyval) :
  py_iter line_items = Return items ->
  forallb valid_line_item items = true ->
  items = list_items line_items.
Proof.
  destruct line_items; simpl; intros H Hv; try discriminate;
    inversion H; subst items; clear H.
  - destruct s; [reflexivity | discriminate].
  - reflexivity.
  - destruct d as [|[k v] d]; [reflexivity | discriminate].
Qed.

(** Whenever [create_invoice] builds a payload at all, it is the payload
    of the section 6 table. *)
Lemma formatted_invoice_Return_spec (d : pydict) (p : pyval) :
  formatted_invoice d = Return p -> p = spec_invoice_payload d.
Proof.
  intros H. apply formatted_invoice_inv in H.
  destruct H as [sid [ino [idate [total [li [items [lines H]]]]]]].
  destruct H as [H1 [H2 [H3 [H4 [H5 [Hiter [Hlines ->]]]]]]].
  pose proof (invoice_lines_Return_valid d items _ _ Hlines) as Hv.
  change 0 with (Z.of_nat 0) in Hlines.
  apply invoice_lines_Return_spec in Hlines. subst lines.
  rewrite (py_iter_valid_items li items Hiter Hv).
  unfold spec_invoice_payload, required, optional, dict_get, field.
  rewrite H1, H2, H3, H4, H5. reflexivity.
Qed.

Lemma formatted_payment_Return_spec (d : pydict) (p : pyval) :
  formatted_payment d = Return p -> p = spec_payment_payload d.
Proof.
  intros H. apply formatted_payment_inv in H.
  destruct H as [pd [pm [am [H1 [H2 [H3 ->]]]]]].
  unfold spec_payment_payload, required, optional, dict_get, field.
  rewrite H1, H2, H3. reflexivity.
Qed.

Lemma spec_invoice_lines_length (cur : pyval) (items : list pyval) :
  forall i, List.length (spec_invoice_lines cur i items) = List.length items.
Proof.
  induction items as [|item rest IH]; intros i; simpl; [| rewrite IH];
    reflexivity.
Qed.

Lemma spec_invoice_lines_nth (cur : pyval) (items : list pyval) :
  forall (i n : nat) (item : pyval),
    nth_error items n = Some item ->
    nth_error (spec_invoice_lines cur i items) n
    = Some (spec_invoice_line cur (i + n) item).
Proof.
  induction items as [|x rest IH]; intros i [|n] item H; simpl in *;
    try discriminate.
  - inversion H. replace (i + 0)%nat with i by lia. reflexivity.
  - rewrite (IH (S i) n item H).
    replace (S i + n)%nat with (i + S n)%nat by lia. reflexivity.
Qed.

Lemma spec_invoice_lines_numbers (cur : pyval) (items : list pyval) :
  forall i,
    map (field "lineNumber") (spec_invoice_lines cur i items)
    = map (fun n => Some (PInt (Z.of_nat n))) (seq (S i) (List.length items)).
Proof.
  induction items as [|item rest IH]; intros i; simpl; [reflexivity |].
  rewrite IH. f_equal. f_equal. f_equal. lia.
Qed.

Lemma spec_invoice_lines_currency (cur : pyval) (items : list pyval) :
  forall i,
    Forall (fun line => field2 "amount" "currency" line = Some cur)
           (spec_invoice_lines cur i items).
Proof.
  induction items as [|item rest IH]; intros i; simpl; constructor;
    [reflexivity | apply IH].
Qed.

Lemma spec_invoice_line_defaults (cur : pyval) (i : nat) (item : pyval) :
  line_has_defaults item (spec_invoice_line cur i item).
Proof.
  split; [reflexivity |]. split.
  - eexists. split; reflexivity.
  - intros k wire Hin Hnone. unfold optional_line_fields in Hin. simpl in Hin.
    unfold spec_invoice_line, optional.
    repeat destruct Hin as [Hin | Hin]; try contradiction;
      inversion Hin; subst k wire; rewrite Hnone; reflexivity.
Qed.

Lemma spec_invoice_lines_defaults (cur : pyval) (items : list pyval) :
  forall i, Forall2 line_has_defaults items (spec_invoice_lines cur i items).
Proof.
  induction items as [|item rest IH]; intros i; simpl; constructor;
    [apply spec_invoice_line_defaults | apply IH].
Qed.

(** C4.  The request of the end-to-end scenario is turned into exactly
    the payload the specification gives, and every valid invoice request
    is turned into the payload of the section 6 field table.  When that
    payload is a JSON value (it holds no datetime) and the text of the
    token is printable ASCII, so that [requests] accepts the request,
    the payload is the JSON body of the POST that [create_invoice] sends
    to the invoices endpoint once it has its token. *)
Theorem C4_invoice_payload_mapping (py_str : pyval -> string)
    (net : nat -> net_reply) (c c' : client) (w w' : world) (tok : pyval)
    (invoice_data : pydict) :
  valid_invoice_request invoice_data = true ->
  formatted_invoice scenario_request = Return scenario_payload /\
  formatted_invoice invoice_data
  = Return (spec_invoice_payload invoice_data) /\
  (get_auth_token net c w = (Return tok, c', w') ->
   printable_ascii (py_str tok) = true ->
   json_serializable (spec_invoice_payload invoice_data) = true ->
   sent (world_of (create_invoice py_str net invoice_data c w))
   = (sent w' ++
      [ mkRequest POST
          (tenant_url c' ++ "/api/v1/financial-management/suppliers/invoices")
          [ ("Authorization", ("Bearer " ++ py_str tok)%string);
            ("Content-Type", "application/json");
            ("Accept", "application/json") ]
          (JsonBody (spec_invoice_payload invoice_data)) ])%list).
Proof.
  intros Hvalid.
  pose proof (formatted_invoice_valid invoice_data Hvalid) as Hfmt.
  split; [reflexivity |]. split; [exact Hfmt |].
  intros Hauth Hhdr Hjson.
  assert (Hp : operation_payload (OpCreateInvoice invoice_data)
               = Return (Some (spec_invoice_payload invoice_data))).
  { simpl. rewrite Hfmt. reflexivity. }
  destruct (run_operation_sends py_str net (OpCreateInvoice invoice_data)
              c c' w w' tok (Some (spec_invoice_payload invoice_data))
              Hauth eq_refl Hp
              (prepare_operation_request py_str (OpCreateInvoice invoice_data)
                 c' tok (Some (spec_invoice_payload invoice_data))
                 eq_refl Hhdr Hjson)) as [_ Hsent].
  exact Hsent.
Qed.

(** C5.  In every payload that [create_invoice] builds, the currency of
    the invoice total and the currency of the amount of every line are
    the invoice-level currency (the request's [currency], "USD" when it
    has none); nothing in a line item can change that. *)
Theorem C5_line_currency_is_invoice_currency (invoice_data : pydict)
    (p : pyval) :
  formatted_invoice invoice_data = Return p ->
  field2 "invoiceTotal" "currency" p
  = Some (dict_get invoice_data "currency" (PStr "USD")) /\
  exists lines,
    field "invoiceLines" p = Some (PList lines) /\
    Forall (fun line =>
              field2 "amount" "currency" line
              = Some (dict_get invoice_data "currency" (PStr "USD")))
           lines.
Proof.
  intros H. apply formatted_invoice_Return_spec in H. subst p.
  split; [reflexivity |].
  eexists. split; [reflexivity |].
  apply spec_invoice_lines_currency.
Qed.

(** C6.  For a list of n line items, the payload has n lines, their
    [lineNumber] values are 1, 2, ..., n in this order, and the line at
    position k carries the amount of the item at position k. *)
Theorem C6_line_numbers_by_position (invoice_data : pydict) (p : pyval)
    (items : list pyval) :
  formatted_invoice invoice_data = Return p ->
  dict_lookup "line_items" invoice_data = Some (PList items) ->
  exists lines,
    field "invoiceLines" p = Some (PList lines) /\
    List.length lines = List.length items /\
    map (field "lineNumber") lines
    = map (fun n => Some (PInt (Z.of_nat n))) (seq 1 (List.length items)) /\
    forall (k : nat) (item : pyval),
      nth_error items k = Some item ->
      exists line,
        nth_error lines k = Some line /\
        field "lineNumber" line = Some (PInt (Z.of_nat k + 1)) /\
        field2 "amount" "amount" line = field "amount" item.
Proof.
  intros H Hli.
  pose proof (formatted_invoice_inv _ _ H) as Hinv.
  destruct Hinv as [sid [ino [idate [total [li [its [lines Hinv]]]]]]].
  destruct Hinv as [_ [_ [_ [_ [H5 [Hiter [Hlines ->]]]]]]].
  rewrite Hli in H5. inversion H5; subst li. simpl in Hiter.
  inversion Hiter; subst its. clear H5 Hiter.
  exists lines. split; [reflexivity |].
  destruct (invoice_lines_inv _ _ _ _ Hlines) as [Hlen Hnth].
  split; [exact Hlen |]. split.
  - change 0 with (Z.of_nat 0) in Hlines.
    rewrite (invoice_lines_Return_spec _ _ _ _ Hlines).
    apply spec_invoice_lines_numbers.
  - intros k item Hk. destruct (Hnth k item Hk) as [line [Hline Hbuilt]].
    exists line. split; [exact Hline |].
    apply invoice_line_inv in Hbuilt.
    destruct Hbuilt as [f [a [-> [Ha ->]]]].
    simpl. rewrite Ha. split; reflexivity.
Qed.

(** C7.  A payload that is built has all its wire keys, whatever the
    request omits: the invoice payload has its six keys, each line its
    six keys and each money object its two; the payment payload has its
    four keys.  An omitted [description], [cost_center], [project_id],
    [account_category] or [reference] comes out as the empty string, an
    omitted [currency] as "USD". *)
Theorem C7_optional_fields_default (invoice_data payment_data : pydict)
    (p q : pyval) :
  formatted_invoice invoice_data = Return p ->
  formatted_payment payment_data = Return q ->
  (keys_of p = invoice_wire_keys /\
   (dict_lookup "description" invoice_data = None ->
    field "invoiceDescription" p = Some (PStr "")) /\
   (exists money, field "invoiceTotal" p = Some money /\
                  keys_of money = money_keys) /\
   (dict_lookup "currency" invoice_data = None ->
    field2 "invoiceTotal" "currency" p = Some (PStr "USD")) /\
   exists lines,
     field "invoiceLines" p = Some (PList lines) /\
     Forall2 line_has_defaults
       (list_items (required "line_items" (PDict invoice_data))) lines /\
     (dict_lookup "currency" invoice_data = None ->
      Forall (fun line => field2 "amount" "currency" line = Some (PStr "USD"))
             lines)) /\
  (keys_of q = payment_wire_keys /\
   (exists money, field "paymentAmount" q = Some money /\
                  keys_of money = money_keys) /\
   (dict_lookup "currency" payment_data = None ->
    field2 "paymentAmount" "currency" q = Some (PStr "USD")) /\
   (dict_lookup "reference" payment_data = None ->
    field "paymentReference" q = Some (PStr ""))).
Proof.
  intros Hp Hq.
  apply formatted_invoice_Return_spec in Hp.
  apply formatted_payment_Return_spec in Hq. subst p q.
  unfold spec_invoice_payload, spec_payment_payload, optional, required.
  split.
  - split; [reflexivity |]. split.
    { intros Hnone. simpl. rewrite Hnone. reflexivity. }
    split.
    { eexists. split; reflexivity. }
    split.
    { intros Hnone. simpl. rewrite Hnone. reflexivity. }
    eexists. split; [reflexivity |]. split.
    + apply spec_invoice_lines_defaults.
    + intros Hnone. simpl field at 1. rewrite Hnone.
      apply spec_invoice_lines_currency.
  - split; [reflexivity |]. split.
    { eexists. split; reflexivity. }
    split; intros Hnone; simpl; rewrite Hnone; reflexivity.
Qed.

(** ** Secrets and the log *)








(** ** The claims on concrete runs *)

(** C3, as the specification states it, fails: the failed token request
    and the failed status lookup (and the two other failed exchanges)
    reach the caller as exceptions of one and the same class, plain
    [Exception]; the missing field arrives as a [KeyError]. *)
Lemma C3_errors_not_typed : ~ distinct_typed_errors sample_failure.
Proof.
  intros H.
  apply (H TokenEndpointFailure StatusLookupFailure); [discriminate |].
  vm_compute. reflexivity.
Qed.

Example sample_failure_classes :
  map (fun k => raised_class (sample_failure k))
      [ TokenEndpointFailure; MissingRequiredField; InvoiceCreationFailure;
        StatusLookupFailure; PaymentUpdateFailure ]
  = [ Some ClsException; Some ClsKeyError; Some ClsException;
      Some ClsException; Some ClsException ].
Proof. vm_compute. reflexivity. Qed.



(** The run behind it: the new client, which has no token, ends up with
    the token and the expiry of the 300 reply. *)
Example status_300_refresh :
  transport_or_non_2xx (net_multiple_choices 0) = true /\
  transport_or_status_failure (net_multiple_choices 0) = false /\
  token sample_client = PNone /\
  token_expiry sample_client = PNone /\
  get_auth_token net_multiple_choices sample_client sample_world
  = (Return (PStr "tok-300"),
     mkClient "https://t.example.com" "id" "s3cret" (PStr "tok-300")
       (PFloat 4601),
     mkWorld 1001 [token_request sample_client] []).
Proof. repeat split; vm_compute; reflexivity. Qed.

(** The three kinds of failure on the sample servers: a token endpoint
    that is down, a request with nothing but a supplier, a status lookup
    that is refused. *)
Lemma C3_failures_surface_untyped_witness :
  (* the token request fails *)
  result_of (run_operation py_str_sample net_unavailable
               (OpCreateInvoice scenario_request) sample_client sample_world)
  = Raise (PyException
      "Failed to authenticate with Workday: 503 Server Error: Service Unavailable"
      (Some (RequestException "503 Server Error: Service Unavailable"
               (Some (error_response 503 "maintenance"
                        "503 Server Error: Service Unavailable"))))) /\
  (* a required field is missing *)
  (exists k,
     result_of (run_operation py_str_sample net_ok
                  (OpCreateInvoice [ ("supplier_id", PStr "S1") ])
                  sample_client sample_world)
     = Raise (KeyError k)) /\
  (* the status lookup fails *)
  result_of (run_operation py_str_sample net_unauthorized
               (OpGetInvoiceStatus (PStr "WD-1")) sample_client sample_world)
  = Raise (PyException
      "Failed to get invoice status from Workday: 401 Client Error: Unauthorized"
      (Some (RequestException "401 Client Error: Unauthorized"
               (Some (error_response 401 "denied"
                        "401 Client Error: Unauthorized"))))).
Proof.
  split; [| split].
  - destruct (C3_failures_surface_untyped py_str_sample net_unavailable
                (OpCreateInvoice scenario_request) sample_client sample_world)
      as [H _].
    apply (H "503 Server Error: Service Unavailable"
             (Some (error_response 503 "maintenance"
                      "503 Server Error: Service Unavailable")));
      reflexivity.
  - destruct (C3_failures_surface_untyped py_str_sample net_ok
                (OpCreateInvoice [ ("supplier_id", PStr "S1") ])
                sample_client sample_world) as [_ H].
    destruct (H (PStr "tok") refreshed_client
                (mkWorld 1001 [token_request sample_client] []) eq_refl)
      as [Hmissing _].
    apply Hmissing. reflexivity.
  - destruct (C3_failures_surface_untyped py_str_sample net_unauthorized
                (OpGetInvoiceStatus (PStr "WD-1")) sample_client sample_world)
      as [_ H].
    destruct (H (PStr "tok") refreshed_client
                (mkWorld 1001 [token_request sample_client] []) eq_refl)
      as [_ Hfail].
    apply (Hfail None "401 Client Error: Unauthorized"
             (Some (error_response 401 "denied"
                      "401 Client Error: Unauthorized")));
      reflexivity.
Defined.

(** The end-to-end scenario: the token request, then the POST with the
    payload of the specification. *)
Lemma C4_invoice_payload_mapping_witness :
  valid_invoice_request scenario_request = true /\
  get_auth_token net_ok sample_client sample_world
  = (Return (PStr "tok"), refreshed_client,
     mkWorld 1001 [token_request sample_client] []) /\
  printable_ascii (py_str_sample (PStr "tok")) = true /\
  json_serializable (spec_invoice_payload scenario_request) = true /\
  formatted_invoice scenario_request = Return scenario_payload /\
  sent (world_of (create_invoice py_str_sample net_ok scenario_request
                    sample_client sample_world))
  = [ token_request sample_client;
      mkRequest POST
        "https://t.example.com/api/v1/financial-management/suppliers/invoices"
        [ ("Authorization", "Bearer tok");
          ("Content-Type", "application/json");
          ("Accept", "application/json") ]
        (JsonBody scenario_payload) ].
Proof.
  do 4 (split; [reflexivity |]).
  destruct (C4_invoice_payload_mapping py_str_sample net_ok
              sample_client refreshed_client sample_world
              (mkWorld 1001 [token_request sample_client] [])
              (PStr "tok") scenario_request eq_refl)
    as [Hscenario [_ Hsent]].
  split; [exact Hscenario | exact (Hsent eq_refl eq_refl eq_refl)].
Defined.

(** The invoice in euros: its second line item names a currency of its
    own, and every line still comes out in euros. *)
Lemma C5_line_currency_is_invoice_currency_witness :
  formatted_invoice euro_request = Return (spec_invoice_payload euro_request) /\
  field2 "invoiceTotal" "currency" (spec_invoice_payload euro_request)
  = Some (PStr "EUR") /\
  exists lines,
    field "invoiceLines" (spec_invoice_payload euro_request)
    = Some (PList lines) /\
    Forall (fun line => field2 "amount" "currency" line = Some (PStr "EUR"))
           lines.
Proof.
  split; [reflexivity |].
  exact (C5_line_currency_is_invoice_currency euro_request
           (spec_invoice_payload euro_request) eq_refl).
Defined.

(** The three line items of the invoice in euros are numbered 1, 2, 3. *)
Lemma C6_line_numbers_by_position_witness :
  formatted_invoice euro_request = Return (spec_invoice_payload euro_request) /\
  exists lines,
    field "invoiceLines" (spec_invoice_payload euro_request)
    = Some (PList lines) /\
    List.length lines = 3%nat /\
    map (field "lineNumber") lines
    = [ Some (PInt 1); Some (PInt 2); Some (PInt 3) ].
Proof.
  split; [reflexivity |].
  destruct (C6_line_numbers_by_position euro_request
              (spec_invoice_payload euro_request)
              (list_items (required "line_items" (PDict euro_request)))
              eq_refl eq_refl)
    as [lines [Hlines [Hlen [Hnum _]]]].
  exists lines. split; [exact Hlines |]. split; [exact Hlen | exact Hnum].
Defined.

(** The scenario request omits every optional field, the sample payment
    its currency and its reference. *)
Lemma C7_optional_fields_default_witness :
  formatted_invoice scenario_request = Return scenario_payload /\
  formatted_payment sample_payment
  = Return (spec_payment_payload sample_payment) /\
  field "invoiceDescription" scenario_payload = Some (PStr "") /\
  field2 "invoiceTotal" "currency" scenario_payload = Some (PStr "USD") /\
  field2 "paymentAmount" "currency" (spec_payment_payload sample_payment)
  = Some (PStr "USD") /\
  field "paymentReference" (spec_payment_payload sample_payment)
  = Some (PStr "").
Proof.
  split; [reflexivity |]. split; [reflexivity |].
  destruct (C7_optional_fields_default scenario_request sample_payment
              scenario_payload (spec_payment_payload sample_payment)
              eq_refl eq_refl)
    as [[_ [Hdescr [_ [Hcur _]]]] [_ [_ [Hpcur Href]]]].
  split; [exact (Hdescr eq_refl) |]. split; [exact (Hcur eq_refl) |].
  split; [exact (Hpcur eq_refl) | exact (Href eq_refl)].
Defined.



(** Two requests that lack required fields: the token is fetched, the
    [KeyError] follows, and only the token request has been sent. *)
Lemma C10_token_before_required_fields_witness :
  missing_invoice_field [ ("supplier_id", PStr "S1") ] = true /\
  missing_payment_field [ ("payment_date", PStr "2025-03-15") ] = true /\
  (exists k,
     create_invoice py_str_sample net_ok [ ("supplier_id", PStr "S1") ]
       sample_client sample_world
     = (Raise (KeyError k), refreshed_client,
        mkWorld 1001 [token_request sample_client] [])) /\
  (exists k,
     update_invoice_payment py_str_sample net_ok (PStr "WD-1")
       [ ("payment_date", PStr "2025-03-15") ] sample_client sample_world
     = (Raise (KeyError k), refreshed_client,
        mkWorld 1001 [token_request sample_client] [])).
Proof.
  split; [reflexivity |]. split; [reflexivity |].
  destruct (C10_token_before_required_fields py_str_sample net_ok
              sample_client sample_world
              [ ("supplier_id", PStr "S1") ] (PStr "WD-1")
              [ ("payment_date", PStr "2025-03-15") ] eq_refl eq_refl)
    as [Hinvoice [Hpayment _]].
  split; [exact Hinvoice | exact Hpayment].
Defined.

(** * Further properties of the code *)

(** ** Token acquisition: what is sent, stored and returned *)

Lemma py_getitem_raises (v : pyval) (k : string) (e : exn) :
  py_getitem v k = Raise e ->
  class_of e = ClsKeyError \/ class_of e = ClsTypeError.
Proof.
  destruct v; simpl; try (intros H; inversion H; auto; fail).
  unfold dict_getitem. destruct (dict_lookup k d); intros H; inversion H; auto.
Qed.

Lemma py_float_add_raises (x : Q) (v : pyval) (e : exn) :
  py_float_add x v = Raise e -> class_of e = ClsTypeError.
Proof. destruct v; simpl; intros H; inversion H; reflexivity. Qed.

Lemma py_float_add_Return (x : Q) (v r : pyval) :
  py_float_add x v = Return r -> exists y, r = PFloat y.
Proof. destruct v; simpl; intros H; inversion H; eauto. Qed.

Lemma get_auth_token_refresh_cases (net : nat -> net_reply) (c : client)
    (w : world) :
  token_is_fresh c w = (Return false, c, w) ->
  refresh_outcome net c w (get_auth_token net c w).
Proof.
  intros Hf.
  destruct (reply_failure (net (List.length (sent w)))) as [[msg resp]|] eqn:Hr.
  { rewrite (get_auth_token_failure net c w msg resp Hf Hr).
    apply RefreshFailed. exact Hr. }
  unfold reply_failure in Hr.
  destruct (outcome (net (List.length (sent w)))) as [m r|r] eqn:Ho;
    [discriminate |].
  destruct (response_ok r) eqn:Hok; [| discriminate].
  destruct (json_body r) as [j|] eqn:Hj; [| discriminate].
  unfold get_auth_token, bind. rewrite Hf. unfold_monad.
  rewrite prepare_token_request, Ho, Hok, Hj.
  destruct (py_getitem j "access_token") as [tok|e] eqn:Ha.
  - cbn [clock sent log tenant_url client_id client_secret token token_expiry].
    destruct (py_getitem j "expires_in") as [x|e] eqn:He.
    + destruct (py_float_add (clock w + latency (net (List.length (sent w)))) x)
        as [y|e] eqn:Hx.
      * destruct (py_float_add_Return _ _ _ Hx) as [q ->].
        eapply RefreshDone; eauto. rewrite He. simpl. exact Hx.
      * pose proof (py_float_add_raises _ _ _ Hx) as Hc.
        destruct e; try discriminate.
        eapply RefreshNoExpiry; eauto. rewrite He. simpl. exact Hx.
    + destruct (py_getitem_raises _ _ _ He) as [Hc|Hc];
        destruct e; try discriminate;
        eapply RefreshNoExpiry; eauto; rewrite He; reflexivity.
  - destruct (py_getitem_raises _ _ _ Ha) as [Hc|Hc];
      destruct e; try discriminate;
      eapply RefreshNoToken; eauto.
Qed.

Lemma needs_refresh_not_fresh (c : client) (w : world) :
  truthy (token c) && truthy (token_expiry c) = false ->
  token_is_fresh c w = (Return false, c, w).
Proof. apply token_is_fresh_absent. Qed.

(** Whatever [get_auth_token] returns is what the object has cached. *)
Lemma get_auth_token_returns_cached (net : nat -> net_reply) (c c' : client)
    (w w' : world) (tok : pyval) :
  get_auth_token net c w = (Return tok, c', w') -> token c' = tok.
Proof.
  intros H. destruct (token_is_fresh_state c w) as [[[|]|e] Hf].
  - rewrite (get_auth_token_hit net c w Hf) in H. inversion H. reflexivity.
  - pose proof (get_auth_token_refresh_cases net c w Hf) as Hc.
    rewrite H in Hc. inversion Hc; reflexivity.
  - rewrite (get_auth_token_check_raises net c w e Hf) in H. discriminate.
Qed.

(** Only [get_auth_token] changes the object: what an operation does
    after it leaves the object alone. *)
Lemma run_operation_client (py_str : pyval -> string) (net : nat -> net_reply)
    (op : operation) (c : client) (w : world) :
  client_of (run_operation py_str net op c w)
  = client_of (get_auth_token net c w).
Proof.
  destruct (get_auth_token net c w) as [[[tok|e] c'] w'] eqn:Hauth.
  - destruct (is_post_auth op) eqn:Hpost.
    + destruct (operation_payload op) as [p|e] eqn:Hp.
      * destruct (prepare_request (operation_request py_str op c' tok p))
          as [e|] eqn:Hacc.
        -- destruct (run_operation_refused py_str net op c c' w w' tok p e
                       Hauth Hpost Hp Hacc) as [[msg [_ ->]] | [_ ->]];
             reflexivity.
        -- destruct (run_operation_sends py_str net op c c' w w' tok p
                       Hauth Hpost Hp Hacc) as [Hc _].
           exact Hc.
      * rewrite (run_operation_payload_raises py_str net op c _ w _ _ _
                   Hauth Hp).
        reflexivity.
    + destruct op; try discriminate. simpl. rewrite Hauth. reflexivity.
  - rewrite (run_operation_auth_raises py_str net op c _ w _ _ Hauth).
    reflexivity.
Qed.

(** What an operation sends after [get_auth_token]: nothing, or its one
    request. *)
Lemma run_operation_sent (py_str : pyval -> string) (net : nat -> net_reply)
    (op : operation) (c : client) (w : world) :
  exists own,
    sent (world_of (run_operation py_str net op c w))
    = (sent (world_of (get_auth_token net c w)) ++ own)%list /\
    (own = [] \/
     exists tok p,
       is_post_auth op = true /\
       result_of (get_auth_token net c w) = Return tok /\
       operation_payload op = Return p /\
       own = [operation_request py_str op
                (client_of (get_auth_token net c w)) tok p]).
Proof.
  destruct (get_auth_token net c w) as [[[tok|e] c'] w'] eqn:Hauth.
  - destruct (is_post_auth op) eqn:Hpost.
    + destruct (operation_payload op) as [p|e] eqn:Hp.
      * destruct (prepare_request (operation_request py_str op c' tok p))
          as [e|] eqn:Hacc.
        -- exists []. rewrite app_nil_r. split; [| auto].
           destruct (run_operation_refused py_str net op c c' w w' tok p e
                       Hauth Hpost Hp Hacc) as [[msg [_ ->]] | [_ ->]];
             reflexivity.
        -- destruct (run_operation_sends py_str net op c c' w w' tok p
                       Hauth Hpost Hp Hacc) as [_ Hs].
           eexists. split; [exact Hs |]. right. exists tok, p. auto.
      * rewrite (run_operation_payload_raises py_str net op c _ w _ _ _
                   Hauth Hp).
        exists []. rewrite app_nil_r. auto.
    + destruct op; try discriminate. simpl. rewrite Hauth.
      exists []. rewrite app_nil_r. auto.
  - rewrite (run_operation_auth_raises py_str net op c _ w _ _ Hauth).
    exists []. rewrite app_nil_r. auto.
Qed.

(** X1.  On a newly constructed object, whatever the operation, the clock
    and the server, the first request that goes out is the token request. *)
Theorem new_client_requests_token_first (py_str : pyval -> string)
    (net : nat -> net_reply) (op : operation)
    (tenant id secret : string) (w : world) :
  exists rest,
    sent (world_of (run_operation py_str net op (init tenant id secret) w))
    = (sent w ++ token_request (init tenant id secret) :: rest)%list.
Proof.
  destruct (run_operation_sent py_str net op (init tenant id secret) w)
    as [own [Hs _]].
  exists own. rewrite Hs.
  assert (Hf : token_is_fresh (init tenant id secret) w
               = (Return false, init tenant id secret, w)).
  { apply token_is_fresh_absent. reflexivity. }
  pose proof (get_auth_token_refresh_cases net _ w Hf) as Hc.
  inversion Hc; cbn [world_of snd sent]; rewrite <- app_assoc; reflexivity.
Qed.

(** X2.  With a datetime as expiry the cache works, and the bound is
    strict: before the expiry the cached token is returned and nothing
    else happens; at the expiry or after it the token request is sent. *)
Theorem datetime_expiry_boundary (net : nat -> net_reply) (c : client)
    (w : world) (t : Q) :
  truthy (token c) = true ->
  token_expiry c = PDatetime t ->
  ((clock w < t)%Q ->
   get_auth_token net c w = (Return (token c), c, w)) /\
  ((t <= clock w)%Q ->
   sent (world_of (get_auth_token net c w))
   = (sent w ++ [token_request c])%list).
Proof.
  intros Ht He. split.
  - intros Hlt. apply get_auth_token_datetime_hit with (t := t); assumption.
  - intros Hle.
    assert (Hf : token_is_fresh c w = (Return false, c, w)).
    { rewrite (token_is_fresh_datetime c w t Ht He).
      apply Qle_bool_iff in Hle. rewrite Hle. reflexivity. }
    pose proof (get_auth_token_refresh_cases net c w Hf) as Hc.
    inversion Hc; reflexivity.
Qed.

(** X3.  An operation authenticates with the token that the object has
    cached when the operation ends: the value [get_auth_token] returns is
    the cached one, and the operation's own request, which goes out when
    [requests] accepts it (the text of the token is printable ASCII, the
    payload holds no datetime), carries it as its bearer token. *)
Theorem bearer_token_is_cached_token (py_str : pyval -> string)
    (net : nat -> net_reply) (op : operation) (c c' : client) (w w' : world)
    (tok : pyval) (p : option pyval) :
  get_auth_token net c w = (Return tok, c', w') ->
  is_post_auth op = true ->
  operation_payload op = Return p ->
  printable_ascii (py_str tok) = true ->
  payload_serializable p = true ->
  token c' = tok /\
  exists request,
    sent (world_of (run_operation py_str net op c w))
    = (sent w' ++ [request])%list /\
    In ("Authorization",
        ("Bearer " ++ py_str (token (client_of (run_operation py_str net op c w))))%string)
       (req_headers request).
Proof.
  intros Hauth Hpost Hp Hhdr Hjson.
  pose proof (get_auth_token_returns_cached net c c' w w' tok Hauth) as Htok.
  split; [exact Htok |].
  destruct (run_operation_sends py_str net op c c' w w' tok p Hauth Hpost Hp
              (prepare_operation_request py_str op c' tok p Hpost Hhdr Hjson))
    as [Hc Hs].
  eexists. split; [exact Hs |]. rewrite Hc, Htok.
  destruct op; try discriminate; simpl; auto.
Qed.

(** X4.  A 2xx reply of the token endpoint without a usable
    [access_token] is not treated as an authentication failure: the
    lookup error itself ([KeyError] or [TypeError]) reaches the caller,
    nothing is logged, and the object is as before. *)
Theorem token_reply_without_token (net : nat -> net_reply) (c : client)
    (w : world) (r : response) (j : pyval) (e : exn) :
  truthy (token c) && truthy (token_expiry c) = false ->
  outcome (net (List.length (sent w))) = NetResponse r ->
  response_ok r = true ->
  json_body r = Some j ->
  py_getitem j "access_token" = Raise e ->
  get_auth_token net c w
  = (Raise e, c,
     mkWorld (clock w + latency (net (List.length (sent w))))
             (sent w ++ [token_request c]) (log w)) /\
  (class_of e = ClsKeyError \/ class_of e = ClsTypeError).
Proof.
  intros Hn Ho Hok Hj Ha. split; [| eapply py_getitem_raises; eassumption].
  pose proof (get_auth_token_refresh_cases net c w
                (needs_refresh_not_fresh c w Hn)) as Hc.
  inversion Hc as [msg resp Hr | r0 j0 e0 Ho0 | r0 j0 tok e0 Ho0 Hok0 Hj0 Ha0
                   | r0 j0 tok y Ho0 Hok0 Hj0 Ha0].
  - unfold reply_failure in Hr. rewrite Ho, Hok, Hj in Hr. discriminate.
  - rewrite Ho in Ho0. inversion Ho0; subst r0.
    match goal with K : json_body r = Some j0 |- _ =>
      rewrite Hj in K; inversion K; subst j0 end.
    match goal with K : py_getitem j "access_token" = Raise e0 |- _ =>
      rewrite Ha in K; inversion K; subst e0 end.
    reflexivity.
  - rewrite Ho in Ho0. inversion Ho0; subst r0.
    rewrite Hj in Hj0. inversion Hj0; subst j0.
    rewrite Ha in Ha0. discriminate.
  - rewrite Ho in Ho0. inversion Ho0; subst r0.
    rewrite Hj in Hj0. inversion Hj0; subst j0.
    rewrite Ha in Ha0. discriminate.
Qed.

(** X5.  A 2xx reply of the token endpoint with a token but without a
    usable [expires_in] leaves the object half updated: the new token is
    stored (source line 54), the expiry is the old one (line 56 raises),
    the error reaches the caller as it is and nothing is logged. *)
Theorem token_reply_without_expiry (net : nat -> net_reply) (c : client)
    (w : world) (r : response) (j tok : pyval) (e : exn) :
  truthy (token c) && truthy (token_expiry c) = false ->
  outcome (net (List.length (sent w))) = NetResponse r ->
  response_ok r = true ->
  json_body r = Some j ->
  py_getitem j "access_token" = Return tok ->
  (x <~ py_getitem j "expires_in" ;;
   py_float_add (clock w + latency (net (List.length (sent w)))) x)
  = Raise e ->
  get_auth_token net c w
  = (Raise e,
     mkClient (tenant_url c) (client_id c) (client_secret c) tok
              (token_expiry c),
     mkWorld (clock w + latency (net (List.length (sent w))))
             (sent w ++ [token_request c]) (log w)).
Proof.
  intros Hn Ho Hok Hj Ha He.
  pose proof (get_auth_token_refresh_cases net c w
                (needs_refresh_not_fresh c w Hn)) as Hc.
  inversion Hc as [msg resp Hr | r0 j0 e0 Ho0 Hok0 Hj0 Ha0
                   | r0 j0 tok0 e0 Ho0 Hok0 Hj0 Ha0 He0
                   | r0 j0 tok0 y Ho0 Hok0 Hj0 Ha0 He0].
  - unfold reply_failure in Hr. rewrite Ho, Hok, Hj in Hr. discriminate.
  - rewrite Ho in Ho0. inversion Ho0; subst r0.
    rewrite Hj in Hj0. inversion Hj0; subst j0.
    rewrite Ha in Ha0. discriminate.
  - rewrite Ho in Ho0. inversion Ho0; subst r0.
    rewrite Hj in Hj0. inversion Hj0; subst j0.
    rewrite Ha in Ha0. inversion Ha0; subst tok0.
    rewrite He in He0. inversion He0; subst e0. reflexivity.
  - rewrite Ho in Ho0. inversion Ho0; subst r0.
    rewrite Hj in Hj0. inversion Hj0; subst j0.
    rewrite He in He0. discriminate.
Qed.

(** An object with a truthy token and a non-zero float as expiry: every
    operation stops at the cache check. *)
Lemma run_operation_float_expiry (py_str : pyval -> string)
    (net : nat -> net_reply) (op : operation) (c : client) (w : world) (x : Q) :
  truthy (token c) = true ->
  token_expiry c = PFloat x ->
  Qeq_bool x 0 = false ->
  run_operation py_str net op c w
  = (Raise (TypeError
      "'>' not supported between instances of 'float' and 'datetime.datetime'"),
     c, w).
Proof.
  intros Ht He Hx. apply run_operation_auth_raises.
  apply get_auth_token_float_expiry with (x := x); assumption.
Qed.

Lemma run_sequence_float_expiry (py_str : pyval -> string)
    (net : nat -> net_reply) (ops : list operation) (c : client) (w : world)
    (x : Q) :
  truthy (token c) = true ->
  token_expiry c = PFloat x ->
  Qeq_bool x 0 = false ->
  run_sequence py_str net ops c w
  = (map (fun _ => Raise (TypeError
      "'>' not supported between instances of 'float' and 'datetime.datetime'"))
         ops,
     c, w).
Proof.
  intros Ht He Hx. induction ops as [|op rest IH]; [reflexivity |].
  cbn [run_sequence map].
  rewrite (run_operation_float_expiry py_str net op c w x Ht He Hx).
  rewrite IH. reflexivity.
Qed.

(** X6.  Once a refresh has succeeded with a truthy token and a non-zero
    expiry, the object is of no further use: whatever operations are
    called on it afterwards, in whatever order, at whatever time and
    against whatever server, each of them raises the [TypeError] of the
    cache check, sends nothing, logs nothing and leaves the object as it
    is. *)
Theorem refreshed_client_fails_every_operation (py_str : pyval -> string)
    (net net' : nat -> net_reply) (c c' : client) (w w' w'' : world)
    (tok : pyval) (ops : list operation) :
  truthy (token c) && truthy (token_expiry c) = false ->
  get_auth_token net c w = (Return tok, c', w') ->
  truthy tok = true ->
  truthy (token_expiry c') = true ->
  run_sequence py_str net' ops c' w''
  = (map (fun _ => Raise (TypeError
      "'>' not supported between instances of 'float' and 'datetime.datetime'"))
         ops,
     c', w'').
Proof.
  intros Hn Hauth Htok Hexp.
  pose proof (get_auth_token_refresh_cases net c w
                (needs_refresh_not_fresh c w Hn)) as Hc.
  rewrite Hauth in Hc. inversion Hc; subst.
  apply run_sequence_float_expiry with (x := y).
  - exact Htok.
  - reflexivity.
  - simpl in Hexp. destruct (Qeq_bool y 0); [discriminate | reflexivity].
Qed.

(** X7.  No operation retries.  What an operation sends is at most the
    token request followed by at most its own request, in this order;
    so never more than two requests, and the operation's own request
    never more than once. *)
Theorem operation_sends_at_most_two_requests (py_str : pyval -> string)
    (net : nat -> net_reply) (op : operation) (c : client) (w : world) :
  exists pre own,
    sent (world_of (run_operation py_str net op c w))
    = (sent w ++ pre ++ own)%list /\
    (pre = [] \/ pre = [token_request c]) /\
    (own = [] \/
     exists tok p,
       is_post_auth op = true /\
       own = [operation_request py_str op
                (client_of (get_auth_token net c w)) tok p]) /\
    (List.length (pre ++ own) <= 2)%nat.
Proof.
  destruct (run_operation_sent py_str net op c w) as [own [Hs Hown]].
  destruct (get_auth_token_effects net c w) as [Hpre _].
  assert (Hown' : own = [] \/
                  exists tok p,
                    is_post_auth op = true /\
                    own = [operation_request py_str op
                             (client_of (get_auth_token net c w)) tok p]).
  { destruct Hown as [-> | [tok [p [Hpost [_ [_ ->]]]]]]; [auto |].
    right. exists tok, p. auto. }
  destruct Hpre as [Hpre | Hpre].
  - exists [], own. rewrite Hs, Hpre. split; [reflexivity |].
    split; [auto |]. split; [exact Hown' |].
    destruct Hown' as [-> | [tok [p [_ ->]]]]; simpl; lia.
  - exists [token_request c], own. rewrite Hs, Hpre, <- app_assoc.
    split; [reflexivity |].
    split; [auto |]. split; [exact Hown' |].
    destruct Hown' as [-> | [tok [p [_ ->]]]]; simpl; lia.
Qed.

(** X8.  The credentials are fixed at construction and the cache belongs
    to [get_auth_token]: every operation leaves the tenant URL, the
    client id and the client secret as they are, and leaves the object
    exactly as its call of [get_auth_token] left it. *)
Theorem operation_keeps_credentials (py_str : pyval -> string)
    (net : nat -> net_reply) (op : operation) (c : client) (w : world) :
  client_of (run_operation py_str net op c w)
  = client_of (get_auth_token net c w) /\
  tenant_url (client_of (run_operation py_str net op c w)) = tenant_url c /\
  client_id (client_of (run_operation py_str net op c w)) = client_id c /\
  client_secret (client_of (run_operation py_str net op c w))
  = client_secret c.
Proof.
  rewrite run_operation_client.
  destruct (get_auth_token_effects net c w) as [_ H]. auto.
Qed.

(** ** The three operations: what comes back and what is logged *)

(** X9.  A status lookup that succeeds returns the parsed body as it is,
    has sent one GET with the bearer token and no body, and has written
    nothing to the log.  The text of the token is printable ASCII, so
    that [requests] accepts the Authorization header. *)
Theorem get_invoice_status_success_is_silent (py_str : pyval -> string)
    (net : nat -> net_reply) (invoice_id : pyval) (c c' : client)
    (w w' : world) (tok j : pyval) (r : response) :
  get_auth_token net c w = (Return tok, c', w') ->
  printable_ascii (py_str tok) = true ->
  outcome (net (List.length (sent w'))) = NetResponse r ->
  response_ok r = true ->
  json_body r = Some j ->
  get_invoice_status py_str net invoice_id c w
  = (Return j, c',
     mkWorld (clock w' + latency (net (List.length (sent w'))))
       (sent w' ++
        [ mkRequest GET
            ((tenant_url c'
              ++ "/api/v1/financial-management/suppliers/invoices")
             ++ "/" ++ py_str invoice_id)
            [ ("Authorization", ("Bearer " ++ py_str tok)%string);
              ("Accept", "application/json") ]
            NoBody ])
       (log w')).
Proof.
  intros Hauth Hhdr Ho Hok Hj.
  pose proof (prepare_operation_request py_str (OpGetInvoiceStatus invoice_id)
                c' tok None eq_refl Hhdr eq_refl) as Hacc.
  cbn [operation_request json_body_of] in Hacc.
  unfold get_invoice_status, bind. rewrite Hauth. unfold_monad.
  rewrite Hacc, Ho, Hok, Hj. reflexivity.
Qed.

(** X10.  An invoice creation that succeeds returns the parsed body as it
    is and writes exactly one record, the INFO record that names the
    invoice number of the request.  The payload is a JSON value (it
    holds no datetime) and the text of the token is printable ASCII, so
    that [requests] accepts the request. *)
Theorem create_invoice_success (py_str : pyval -> string)
    (net : nat -> net_reply) (invoice_data : pydict) (c c' : client)
    (w w' : world) (tok p j : pyval) (r : response) :
  get_auth_token net c w = (Return tok, c', w') ->
  formatted_invoice invoice_data = Return p ->
  printable_ascii (py_str tok) = true ->
  json_serializable p = true ->
  outcome (net (List.length (sent w'))) = NetResponse r ->
  response_ok r = true ->
  json_body r = Some j ->
  exists invoice_number,
    dict_lookup "invoice_number" invoice_data = Some invoice_number /\
    create_invoice py_str net invoice_data c w
    = (Return j, c',
       mkWorld (clock w' + latency (net (List.length (sent w'))))
         (sent w' ++
          [ mkRequest POST
              (tenant_url c'
               ++ "/api/v1/financial-management/suppliers/invoices")
              [ ("Authorization", ("Bearer " ++ py_str tok)%string);
                ("Content-Type", "application/json");
                ("Accept", "application/json") ]
              (JsonBody p) ])
         (log w' ++
          [ mkLog INFO ("Successfully created invoice "
                        ++ py_str invoice_number ++ " in Workday") ])).
Proof.
  intros Hauth Hp Hhdr Hjson Ho Hok Hj.
  pose proof (prepare_operation_request py_str (OpCreateInvoice invoice_data)
                c' tok (Some p) eq_refl Hhdr Hjson) as Hacc.
  cbn [operation_request json_body_of] in Hacc.
  destruct (formatted_invoice_inv _ _ Hp)
    as [sid [ino [idate [total [li [items [lines [_ [Hno _]]]]]]]]].
  exists ino. split; [exact Hno |].
  unfold create_invoice, bind. rewrite Hauth. unfold get_self, lift.
  rewrite Hp. unfold_monad. rewrite Hacc, Ho, Hok, Hj.
  unfold dict_getitem. rewrite Hno. reflexivity.
Qed.

(** X11.  The payment update logs its success before it parses the reply
    (source lines 181-182).  A 2xx reply whose body is not JSON is
    therefore logged as a success and then as an error, and raised as a
    failure.  The request is one that [requests] accepts: the text of
    the token is printable ASCII and the payload holds no datetime. *)
Theorem payment_logged_as_success_then_fails (py_str : pyval -> string)
    (net : nat -> net_reply) (invoice_id : pyval) (payment_data : pydict)
    (c c' : client) (w w' : world) (tok p : pyval) (r : response) :
  get_auth_token net c w = (Return tok, c', w') ->
  formatted_payment payment_data = Return p ->
  printable_ascii (py_str tok) = true ->
  json_serializable p = true ->
  outcome (net (List.length (sent w'))) = NetResponse r ->
  response_ok r = true ->
  json_body r = None ->
  result_of (update_invoice_payment py_str net invoice_id payment_data c w)
  = Raise (PyException
             ("Failed to update invoice payment in Workday: "
              ++ json_error_msg r)
             (Some (RequestException (json_error_msg r) None))) /\
  log (world_of (update_invoice_payment py_str net invoice_id payment_data
                   c w))
  = (log w' ++
     [ mkLog INFO ("Successfully updated payment for invoice "
                   ++ py_str invoice_id);
       mkLog ERROR ("Error updating payment: " ++ json_error_msg r) ])%list.
Proof.
  intros Hauth Hp Hhdr Hjson Ho Hok Hj.
  pose proof (prepare_operation_request py_str
                (OpUpdateInvoicePayment invoice_id payment_data)
                c' tok (Some p) eq_refl Hhdr Hjson) as Hacc.
  cbn [operation_request json_body_of] in Hacc.
  unfold update_invoice_payment, bind. rewrite Hauth. unfold get_self, lift.
  rewrite Hp. unfold_monad. rewrite Hacc, Ho, Hok, Hj.
  cbn [result_of world_of fst snd log]. rewrite <- app_assoc.
  split; reflexivity.
Qed.

(** The error records of a failed invoice creation: the error text, and
    the body of the error's response when that response is truthy. *)
Lemma create_invoice_failure_log (py_str : pyval -> string)
    (net : nat -> net_reply) (invoice_data : pydict) (c c' : client)
    (w w' : world) (tok p : pyval) (msg : string) (resp : option response) :
  get_auth_token net c w = (Return tok, c', w') ->
  formatted_invoice invoice_data = Return p ->
  printable_ascii (py_str tok) = true ->
  json_serializable p = true ->
  reply_failure (net (List.length (sent w'))) = Some (msg, resp) ->
  log (world_of (create_invoice py_str net invoice_data c w))
  = (log w' ++
     mkLog ERROR ("Error creating invoice: " ++ msg)
     :: match resp with
        | Some r => if response_ok r
                    then [ mkLog ERROR ("Response: " ++ text r) ]
                    else []
        | None => []
        end)%list.
Proof.
  intros Hauth Hp Hhdr Hjson Hr. unfold reply_failure in Hr.
  pose proof (prepare_operation_request py_str (OpCreateInvoice invoice_data)
                c' tok (Some p) eq_refl Hhdr Hjson) as Hacc.
  cbn [operation_request json_body_of] in Hacc.
  unfold create_invoice, bind. rewrite Hauth. unfold get_self, lift.
  rewrite Hp. unfold_monad. rewrite Hacc.
  destruct (outcome (net (List.length (sent w')))) as [m r|r].
  - inversion Hr; subst m r.
    destruct resp as [r|]; [destruct (response_ok r) eqn:Hok |];
      cbn [world_of fst snd log]; rewrite ?Hok;
      cbn [world_of fst snd log]; rewrite <- ?app_assoc; reflexivity.
  - destruct (response_ok r) eqn:Hok.
    + destruct (json_body r) as [j|]; [discriminate |].
      inversion Hr; subst msg resp. reflexivity.
    + inversion Hr; subst msg resp.
      cbn [world_of fst snd log]. rewrite Hok. reflexivity.
Qed.

(** X12.  When an invoice creation fails, the response body is logged only
    if the error carries a response whose status is not an error status
    (the test of source line 117 is the truth value of the response).
    For a 4xx or 5xx reply the log gets the one record with the error
    text and the body of the reply is not logged.  The request is one
    that [requests] accepts: the text of the token is printable ASCII
    and the payload holds no datetime. *)
Theorem create_invoice_error_reply_body_not_logged (py_str : pyval -> string)
    (net : nat -> net_reply) (invoice_data : pydict) (c c' : client)
    (w w' : world) (tok p : pyval) (r : response) :
  get_auth_token net c w = (Return tok, c', w') ->
  formatted_invoice invoice_data = Return p ->
  printable_ascii (py_str tok) = true ->
  json_serializable p = true ->
  outcome (net (List.length (sent w'))) = NetResponse r ->
  response_ok r = false ->
  log (world_of (create_invoice py_str net invoice_data c w))
  = (log w' ++
     [ mkLog ERROR ("Error creating invoice: " ++ http_error_msg r) ])%list.
Proof.
  intros Hauth Hp Hhdr Hjson Ho Hok.
  rewrite (create_invoice_failure_log py_str net invoice_data c c' w w' tok p
             (http_error_msg r) (Some r) Hauth Hp Hhdr Hjson).
  - rewrite Hok. reflexivity.
  - unfold reply_failure. rewrite Ho, Hok. reflexivity.
Qed.

(** X13.  When the library gives up with an error that carries a response
    of non-error status (too many redirects), the invoice creation logs
    two error records: the error text and the body of that response.
    The request is one that [requests] accepts: the text of the token is
    printable ASCII and the payload holds no datetime. *)
Theorem create_invoice_redirect_body_logged (py_str : pyval -> string)
    (net : nat -> net_reply) (invoice_data : pydict) (c c' : client)
    (w w' : world) (tok p : pyval) (msg : string) (r : response) :
  get_auth_token net c w = (Return tok, c', w') ->
  formatted_invoice invoice_data = Return p ->
  printable_ascii (py_str tok) = true ->
  json_serializable p = true ->
  outcome (net (List.length (sent w'))) = NetError msg (Some r) ->
  response_ok r = true ->
  log (world_of (create_invoice py_str net invoice_data c w))
  = (log w' ++
     [ mkLog ERROR ("Error creating invoice: " ++ msg);
       mkLog ERROR ("Response: " ++ text r) ])%list.
Proof.
  intros Hauth Hp Hhdr Hjson Ho Hok.
  rewrite (create_invoice_failure_log py_str net invoice_data c c' w w' tok p
             msg (Some r) Hauth Hp Hhdr Hjson).
  - rewrite Hok. reflexivity.
  - unfold reply_failure. rewrite Ho. reflexivity.
Qed.

(** X14.  A valid payment request is turned into the payload of the
    section 6 table.  When that payload is a JSON value (it holds no
    datetime) and the text of the token is printable ASCII, so that
    [requests] accepts the request, the payload is the JSON body of the
    one PUT sent to the payments endpoint of the invoice; and when the
    reply is 2xx JSON the parsed body is returned and one INFO record
    names the invoice id. *)
Theorem payment_payload_and_request (py_str : pyval -> string)
    (net : nat -> net_reply) (invoice_id : pyval) (payment_data : pydict)
    (c c' : client) (w w' : world) (tok j : pyval) (r : response) :
  valid_payment_request payment_data = true ->
  get_auth_token net c w = (Return tok, c', w') ->
  printable_ascii (py_str tok) = true ->
  json_serializable (spec_payment_payload payment_data) = true ->
  outcome (net (List.length (sent w'))) = NetResponse r ->
  response_ok r = true ->
  json_body r = Some j ->
  formatted_payment payment_data
  = Return (spec_payment_payload payment_data) /\
  update_invoice_payment py_str net invoice_id payment_data c w
  = (Return j, c',
     mkWorld (clock w' + latency (net (List.length (sent w'))))
       (sent w' ++
        [ mkRequest PUT
            ((tenant_url c'
              ++ "/api/v1/financial-management/suppliers/invoices")
             ++ "/" ++ py_str invoice_id ++ "/payments")
            [ ("Authorization", ("Bearer " ++ py_str tok)%string);
              ("Content-Type", "application/json");
              ("Accept", "application/json") ]
            (JsonBody (spec_payment_payload payment_data)) ])
       (log w' ++
        [ mkLog INFO ("Successfully updated payment for invoice "
                      ++ py_str invoice_id) ])).
Proof.
  intros Hvalid Hauth Hhdr Hjson Ho Hok Hj.
  pose proof (formatted_payment_valid payment_data Hvalid) as Hp.
  pose proof (prepare_operation_request py_str
                (OpUpdateInvoicePayment invoice_id payment_data)
                c' tok (Some (spec_payment_payload payment_data))
                eq_refl Hhdr Hjson) as Hacc.
  cbn [operation_request json_body_of] in Hacc.
  split; [exact Hp |].
  unfold update_invoice_payment, bind. rewrite Hauth. unfold get_self, lift.
  rewrite Hp. unfold_monad. rewrite Hacc, Ho, Hok, Hj. reflexivity.
Qed.

(** X21.  A payload that holds a datetime is not sent: [json.dumps]
    raises inside [requests], and the [TypeError] reaches the caller as
    it is.  Nothing goes out, nothing is logged, and the token just
    fetched stays cached. *)
Theorem datetime_payload_raises_type_error (py_str : pyval -> string)
    (net : nat -> net_reply) (op : operation) (c c' : client) (w w' : world)
    (tok p : pyval) :
  get_auth_token net c w = (Return tok, c', w') ->
  is_post_auth op = true ->
  operation_payload op = Return (Some p) ->
  printable_ascii (py_str tok) = true ->
  json_serializable p = false ->
  run_operation py_str net op c w
  = (Raise (TypeError "Object of type datetime is not JSON serializable"),
     c', w').
Proof.
  intros Hauth Hpost Hp Hhdr Hjson.
  pose proof (prepare_operation_request_body py_str op c' tok (Some p)
                Hpost Hhdr) as Hacc.
  cbn [json_body_of check_body] in Hacc. rewrite Hjson in Hacc.
  destruct (run_operation_refused py_str net op c c' w w' tok (Some p) _
              Hauth Hpost Hp Hacc) as [[msg [E _]] | [_ H]];
    [discriminate E | exact H].
Qed.


(** ** Payload construction: errors and edge cases *)

Lemma first_missing_invoice (d : pydict) (k : string) :
  first_missing invoice_required_keys d = Some k ->
  formatted_invoice d = Raise (KeyError k).
Proof.
  unfold first_missing, invoice_required_keys, formatted_invoice,
    dict_getitem, has_key.
  destruct (dict_lookup "supplier_id" d); simpl;
    [| intros H; inversion H; reflexivity].
  destruct (dict_lookup "invoice_number" d); simpl;
    [| intros H; inversion H; reflexivity].
  destruct (dict_lookup "invoice_date" d); simpl;
    [| intros H; inversion H; reflexivity].
  destruct (dict_lookup "total_amount" d); simpl;
    [| intros H; inversion H; reflexivity].
  destruct (dict_lookup "line_items" d); simpl;
    [discriminate | intros H; inversion H; reflexivity].
Qed.

Lemma first_missing_payment (d : pydict) (k : string) :
  first_missing payment_required_keys d = Some k ->
  formatted_payment d = Raise (KeyError k).
Proof.
  unfold first_missing, payment_required_keys, formatted_payment,
    dict_getitem, has_key.
  destruct (dict_lookup "payment_date" d); simpl;
    [| intros H; inversion H; reflexivity].
  destruct (dict_lookup "payment_method" d); simpl;
    [| intros H; inversion H; reflexivity].
  destruct (dict_lookup "amount" d); simpl;
    [discriminate | intros H; inversion H; reflexivity].
Qed.

Lemma first_missing_None_invoice (d : pydict) :
  first_missing invoice_required_keys d = None ->
  exists sid ino idate total li,
    dict_lookup "supplier_id" d = Some sid /\
    dict_lookup "invoice_number" d = Some ino /\
    dict_lookup "invoice_date" d = Some idate /\
    dict_lookup "total_amount" d = Some total /\
    dict_lookup "line_items" d = Some li.
Proof.
  unfold first_missing, invoice_required_keys, has_key.
  destruct (dict_lookup "supplier_id" d); [| discriminate].
  destruct (dict_lookup "invoice_number" d); [| discriminate].
  destruct (dict_lookup "invoice_date" d); [| discriminate].
  destruct (dict_lookup "total_amount" d); [| discriminate].
  destruct (dict_lookup "line_items" d); [| discriminate].
  intros _. do 5 eexists. repeat split; reflexivity.
Qed.

(** X15.  When required fields are missing, the [KeyError] names the first
    of them in the order in which the source reads them (supplier_id,
    invoice_number, invoice_date, total_amount, line_items for an
    invoice; payment_date, payment_method, amount for a payment), and it
    is what the method raises once it has its token. *)
Theorem first_missing_field_is_reported (py_str : pyval -> string)
    (net : nat -> net_reply) (invoice_data payment_data : pydict)
    (invoice_id : pyval) (k1 k2 : string) (c c' : client) (w w' : world)
    (tok : pyval) :
  first_missing invoice_required_keys invoice_data = Some k1 ->
  first_missing payment_required_keys payment_data = Some k2 ->
  get_auth_token net c w = (Return tok, c', w') ->
  create_invoice py_str net invoice_data c w = (Raise (KeyError k1), c', w') /\
  update_invoice_payment py_str net invoice_id payment_data c w
  = (Raise (KeyError k2), c', w').
Proof.
  intros H1 H2 Hauth. split.
  - apply (run_operation_payload_raises py_str net
             (OpCreateInvoice invoice_data) c c' w w' tok _ Hauth).
    simpl. rewrite (first_missing_invoice _ _ H1). reflexivity.
  - apply (run_operation_payload_raises py_str net
             (OpUpdateInvoicePayment invoice_id payment_data)
             c c' w w' tok _ Hauth).
    simpl. rewrite (first_missing_payment _ _ H2). reflexivity.
Qed.

Lemma invoice_line_unusable (d : pydict) (idx : Z) (item : pyval) :
  valid_line_item item = false ->
  invoice_line d idx item = Raise (line_item_error item).
Proof.
  destruct item; simpl; intros H; try reflexivity.
  unfold invoice_line. simpl. unfold dict_getitem. unfold has_key in H.
  destruct (dict_lookup "amount" d0); [discriminate | reflexivity].
Qed.

Lemma invoice_lines_first_unusable (d : pydict) (good : list pyval)
    (bad : pyval) (rest : list pyval) :
  forall i : nat,
    forallb valid_line_item good = true ->
    valid_line_item bad = false ->
    invoice_lines d (Z.of_nat i) (good ++ bad :: rest)
    = Raise (line_item_error bad).
Proof.
  induction good as [|g good IH]; intros i Hg Hb; simpl.
  - rewrite (invoice_line_unusable d _ bad Hb). reflexivity.
  - simpl in Hg. apply andb_true_iff in Hg. destruct Hg as [Hg1 Hg2].
    rewrite (invoice_line_valid d i g Hg1). simpl.
    replace (Z.of_nat i + 1) with (Z.of_nat (S i)) by lia.
    rewrite (IH (S i) Hg2 Hb). reflexivity.
Qed.

(** X16.  With all required fields there, the first line item that cannot
    be used decides the error of the whole request: a dict without an
    amount gives [KeyError('amount')], a line item that is not a dict
    gives the [AttributeError] of its missing [get]; later line items are
    not looked at. *)
Theorem first_unusable_line_item_is_reported (invoice_data : pydict)
    (good rest : list pyval) (bad : pyval) :
  first_missing invoice_required_keys invoice_data = None ->
  dict_lookup "line_items" invoice_data = Some (PList (good ++ bad :: rest)) ->
  forallb valid_line_item good = true ->
  valid_line_item bad = false ->
  formatted_invoice invoice_data = Raise (line_item_error bad).
Proof.
  intros Hreq Hli Hg Hb.
  destruct (first_missing_None_invoice _ Hreq)
    as [sid [ino [idate [total [li [H1 [H2 [H3 [H4 H5]]]]]]]]].
  rewrite Hli in H5. inversion H5; subst li.
  unfold formatted_invoice, dict_getitem. rewrite H1, H2, H3, H4, Hli.
  simpl. change 0 with (Z.of_nat 0).
  rewrite (invoice_lines_first_unusable invoice_data good bad rest 0 Hg Hb).
  reflexivity.
Qed.

(** X17.  The source does not insist on a line item.  A request whose
    [line_items] is an empty list (or an empty string or dict, which
    iterate to nothing as well) is turned into a payload with an empty
    [invoiceLines]; and that payload is posted when it is a JSON value
    (it holds no datetime) and the text of the token is printable ASCII,
    so that [requests] accepts the request. *)
Theorem invoice_without_line_items_is_posted (py_str : pyval -> string)
    (net : nat -> net_reply) (invoice_data : pydict) (line_items : pyval)
    (c c' : client) (w w' : world) (tok : pyval) :
  first_missing invoice_required_keys invoice_data = None ->
  dict_lookup "line_items" invoice_data = Some line_items ->
  line_items = PList [] \/ line_items = PStr "" \/ line_items = PDict [] ->
  get_auth_token net c w = (Return tok, c', w') ->
  exists p,
    formatted_invoice invoice_data = Return p /\
    field "invoiceLines" p = Some (PList []) /\
    (printable_ascii (py_str tok) = true ->
     json_serializable p = true ->
     exists request,
       sent (world_of (create_invoice py_str net invoice_data c w))
       = (sent w' ++ [request])%list /\
       req_method request = POST /\
       req_body request = JsonBody p).
Proof.
  intros Hreq Hli Hempty Hauth.
  destruct (first_missing_None_invoice _ Hreq)
    as [sid [ino [idate [total [li [H1 [H2 [H3 [H4 H5]]]]]]]]].
  rewrite Hli in H5. inversion H5; subst li.
  assert (Hiter : py_iter line_items = Return []).
  { destruct Hempty as [-> | [-> | ->]]; reflexivity. }
  assert (Hp : exists p, formatted_invoice invoice_data = Return p /\
                         field "invoiceLines" p = Some (PList [])).
  { unfold formatted_invoice, dict_getitem. rewrite H1, H2, H3, H4, Hli.
    simpl. rewrite Hiter. simpl. eexists. split; reflexivity. }
  destruct Hp as [p [Hp Hlines]].
  assert (Hop : operation_payload (OpCreateInvoice invoice_data)
                = Return (Some p)).
  { simpl. rewrite Hp. reflexivity. }
  exists p. split; [exact Hp |]. split; [exact Hlines |].
  intros Hhdr Hjson.
  destruct (run_operation_sends py_str net (OpCreateInvoice invoice_data)
              c c' w w' tok (Some p) Hauth eq_refl Hop
              (prepare_operation_request py_str (OpCreateInvoice invoice_data)
                 c' tok (Some p) eq_refl Hhdr Hjson)) as [_ Hs].
  eexists. split; [exact Hs |]. split; reflexivity.
Qed.

Lemma invoice_lines_ext (d d' : pydict) (items : list pyval) :
  dict_lookup "currency" d = dict_lookup "currency" d' ->
  forall idx, invoice_lines d idx items = invoice_lines d' idx items.
Proof.
  intros Hc. induction items as [|item rest IH]; intros idx; simpl;
    [reflexivity |].
  unfold invoice_line, dict_get. rewrite Hc, IH. reflexivity.
Qed.

Lemma formatted_invoice_ext (d d' : pydict) :
  (forall k, In k invoice_request_keys ->
             dict_lookup k d = dict_lookup k d') ->
  formatted_invoice d = formatted_invoice d'.
Proof.
  intros H. unfold formatted_invoice, dict_getitem, dict_get.
  rewrite (H "supplier_id"), (H "invoice_number"), (H "invoice_date"),
    (H "total_amount"), (H "line_items"), (H "description"), (H "currency")
    by (unfold invoice_request_keys; simpl; tauto).
  destruct (dict_lookup "supplier_id" d'); simpl; [| reflexivity].
  destruct (dict_lookup "invoice_number" d'); simpl; [| reflexivity].
  destruct (dict_lookup "invoice_date" d'); simpl; [| reflexivity].
  destruct (dict_lookup "total_amount" d'); simpl; [| reflexivity].
  destruct (dict_lookup "line_items" d') as [li|]; simpl; [| reflexivity].
  destruct (py_iter li) as [items|]; simpl; [| reflexivity].
  rewrite (invoice_lines_ext d d' items (H "currency"
             ltac:(unfold invoice_request_keys; simpl; tauto))).
  reflexivity.
Qed.

(** X18.  [create_invoice] reads seven keys of the request and nothing
    else: two requests that agree on supplier_id, invoice_number,
    invoice_date, description, total_amount, currency and line_items give
    the same run (result, object, requests, log), whatever other keys
    they hold and in whatever order. *)
Theorem create_invoice_ignores_other_keys (py_str : pyval -> string)
    (net : nat -> net_reply) (d d' : pydict) (c : client) (w : world) :
  (forall k, In k invoice_request_keys ->
             dict_lookup k d = dict_lookup k d') ->
  create_invoice py_str net d c w = create_invoice py_str net d' c w.
Proof.
  intros H. unfold create_invoice.
  rewrite (formatted_invoice_ext d d' H). unfold dict_getitem.
  rewrite (H "invoice_number")
    by (unfold invoice_request_keys; simpl; tauto).
  reflexivity.
Qed.

(** ** What is logged and what is raised *)

Lemma token_is_fresh_raises (c : client) (w : world) (e : exn) :
  token_is_fresh c w = (Raise e, c, w) -> class_of e = ClsTypeError.
Proof.
  unfold token_is_fresh. unfold_monad.
  destruct (truthy (token c) && truthy (token_expiry c)); [| discriminate].
  destruct (token_expiry c); simpl; intros H; inversion H; reflexivity.
Qed.

Lemma invoice_line_raises (d : pydict) (idx : Z) (item : pyval) (e : exn) :
  invoice_line d idx item = Raise e -> class_of e <> ClsException.
Proof.
  unfold invoice_line. destruct item; simpl;
    try (intros H; inversion H; discriminate).
  unfold dict_getitem. destruct (dict_lookup "amount" d0); simpl;
    intros H; inversion H; discriminate.
Qed.

Lemma invoice_lines_raises (d : pydict) (items : list pyval) :
  forall (idx : Z) (e : exn),
    invoice_lines d idx items = Raise e -> class_of e <> ClsException.
Proof.
  induction items as [|item rest IH]; intros idx e; simpl; [discriminate |].
  destruct (invoice_line d idx item) as [line|e'] eqn:Hl; simpl.
  - destruct (invoice_lines d (idx + 1) rest) as [lines|e''] eqn:Hr; simpl;
      [discriminate |].
    intros H. inversion H; subst. eapply IH. eassumption.
  - intros H. inversion H; subst. eapply invoice_line_raises. eassumption.
Qed.

Lemma formatted_invoice_raises (d : pydict) (e : exn) :
  formatted_invoice d = Raise e -> class_of e <> ClsException.
Proof.
  unfold formatted_invoice, dict_getitem.
  destruct (dict_lookup "supplier_id" d); simpl;
    [| intros H; inversion H; discriminate].
  destruct (dict_lookup "invoice_number" d); simpl;
    [| intros H; inversion H; discriminate].
  destruct (dict_lookup "invoice_date" d); simpl;
    [| intros H; inversion H; discriminate].
  destruct (dict_lookup "total_amount" d); simpl;
    [| intros H; inversion H; discriminate].
  destruct (dict_lookup "line_items" d) as [li|]; simpl;
    [| intros H; inversion H; discriminate].
  destruct (py_iter li) as [items|e'] eqn:Hi; simpl.
  - destruct (invoice_lines d 0 items) as [lines|e'] eqn:Hl; simpl;
      [discriminate |].
    intros H. inversion H; subst. eapply invoice_lines_raises. eassumption.
  - intros H. inversion H; subst.
    destruct li; simpl in Hi; inversion Hi; discriminate.
Qed.

Lemma formatted_payment_raises (d : pydict) (e : exn) :
  formatted_payment d = Raise e -> class_of e <> ClsException.
Proof.
  unfold formatted_payment, dict_getitem.
  destruct (dict_lookup "payment_date" d); simpl;
    [| intros H; inversion H; discriminate].
  destruct (dict_lookup "payment_method" d); simpl;
    [| intros H; inversion H; discriminate].
  destruct (dict_lookup "amount" d); simpl;
    [discriminate | intros H; inversion H; discriminate].
Qed.

Lemma not_client_exception (e : exn) :
  class_of e <> ClsException -> is_client_exception (Raise e) = false.
Proof. destruct e; simpl; intros H; try reflexivity. contradiction. Qed.

(** The records of [get_auth_token]: one error record when it raises its
    own exception, nothing otherwise. *)
Lemma get_auth_token_records (net : nat -> net_reply) (c : client) (w : world) :
  exists recs,
    log (world_of (get_auth_token net c w)) = (log w ++ recs)%list /\
    existsb is_error_record recs
    = is_client_exception (result_of (get_auth_token net c w)) /\
    (forall tok, result_of (get_auth_token net c w) = Return tok ->
                 recs = []).
Proof.
  destruct (token_is_fresh_state c w) as [[[|]|e] Hf].
  - rewrite (get_auth_token_hit net c w Hf). exists [].
    cbn. rewrite app_nil_r. auto.
  - pose proof (get_auth_token_refresh_cases net c w Hf) as Hc.
    inversion Hc as [msg resp Hr | r j e Ho Hok Hj Ha
                     | r j tok e Ho Hok Hj Ha He
                     | r j tok y Ho Hok Hj Ha He].
    + eexists. split; [reflexivity |]. split; [reflexivity |].
      intros tok Ht. discriminate.
    + exists []. cbn [world_of result_of fst snd log]. rewrite app_nil_r.
      split; [reflexivity |]. split; [| reflexivity].
      symmetry. apply not_client_exception.
      destruct (py_getitem_raises _ _ _ Ha) as [K|K]; rewrite K; discriminate.
    + exists []. cbn [world_of result_of fst snd log]. rewrite app_nil_r.
      split; [reflexivity |]. split; [| reflexivity].
      symmetry. apply not_client_exception.
      destruct (py_getitem j "expires_in") as [x|e'] eqn:Hx; simpl in He.
      * rewrite (py_float_add_raises _ _ _ He). discriminate.
      * inversion He; subst e'.
        destruct (py_getitem_raises _ _ _ Hx) as [K|K]; rewrite K;
          discriminate.
    + exists []. cbn [world_of result_of fst snd log]. rewrite app_nil_r.
      auto.
  - rewrite (get_auth_token_check_raises net c w e Hf). exists [].
    cbn [world_of result_of fst snd log]. rewrite app_nil_r.
    split; [reflexivity |]. split; [| reflexivity].
    symmetry. apply not_client_exception.
    rewrite (token_is_fresh_raises c w e Hf). discriminate.
Qed.

(** The records of what follows [get_auth_token] in an operation. *)
Lemma run_operation_records (py_str : pyval -> string)
    (net : nat -> net_reply) (op : operation) (c c' : client) (w w' : world)
    (tok : pyval) :
  get_auth_token net c w = (Return tok, c', w') ->
  exists recs,
    log (world_of (run_operation py_str net op c w)) = (log w' ++ recs)%list /\
    existsb is_error_record recs
    = is_client_exception (result_of (run_operation py_str net op c w)).
Proof.
  intros Hauth.
  destruct (operation_payload op) as [p|e] eqn:Hp.
  2:{ rewrite (run_operation_payload_raises py_str net op c _ w _ _ _
                 Hauth Hp).
      exists []. cbn [world_of result_of fst snd]. rewrite app_nil_r.
      split; [reflexivity |]. symmetry. apply not_client_exception.
      destruct op; try discriminate Hp.
      - apply operation_payload_create_Raise in Hp.
        exact (formatted_invoice_raises _ _ Hp).
      - apply operation_payload_payment_Raise in Hp.
        exact (formatted_payment_raises _ _ Hp). }
  destruct (is_post_auth op) eqn:Hpost.
  2:{ destruct op; try discriminate. simpl run_operation.
      rewrite Hauth. exists []. cbn. rewrite app_nil_r. auto. }
  destruct (prepare_request (operation_request py_str op c' tok p))
    as [e|] eqn:Hacc.
  { destruct (run_operation_refused py_str net op c c' w w' tok p e
                Hauth Hpost Hp Hacc) as [[msg [_ ->]] | [-> ->]].
    - eexists. split; reflexivity.
    - exists []. cbn [world_of result_of fst snd]. rewrite app_nil_r.
      split; reflexivity. }
  destruct op; try discriminate; simpl run_operation.
  - apply operation_payload_create_Return in Hp. destruct Hp as [q [-> Hq]].
    cbn [operation_request json_body_of] in Hacc.
    destruct (formatted_invoice_inv _ _ Hq)
      as [sid [ino [idate [total [li [items [lines [_ [Hno _]]]]]]]]].
    unfold create_invoice, bind. rewrite Hauth. unfold get_self, lift.
    rewrite Hq. unfold_monad. rewrite Hacc. unfold dict_getitem. rewrite Hno.
    destruct (outcome (net (List.length (sent w')))) as [m r|r].
    { destruct r as [r|]; [destruct (response_ok r) eqn:Hr |];
        cbn [world_of result_of fst snd log]; rewrite ?Hr;
        cbn [world_of result_of fst snd log]; rewrite <- ?app_assoc;
        eexists; split; reflexivity. }
    destruct (response_ok r) eqn:Hok.
    2:{ cbn [world_of result_of fst snd log]. rewrite Hok.
        eexists; split; reflexivity. }
    destruct (json_body r) as [j|];
      cbn [world_of result_of fst snd log]; eexists; split; reflexivity.
  - simpl in Hp. inversion Hp; subst p.
    cbn [operation_request json_body_of] in Hacc.
    unfold get_invoice_status, bind. rewrite Hauth. unfold_monad.
    rewrite Hacc.
    destruct (outcome (net (List.length (sent w')))) as [m r|r].
    { eexists; split; reflexivity. }
    destruct (response_ok r); [| eexists; split; reflexivity].
    destruct (json_body r) as [j|]; [| eexists; split; reflexivity].
    exists []. cbn. rewrite app_nil_r. auto.
  - apply operation_payload_payment_Return in Hp. destruct Hp as [q [-> Hq]].
    cbn [operation_request json_body_of] in Hacc.
    unfold update_invoice_payment, bind. rewrite Hauth.
    unfold get_self, lift. rewrite Hq. unfold_monad. rewrite Hacc.
    destruct (outcome (net (List.length (sent w')))) as [m r|r].
    { eexists; split; reflexivity. }
    destruct (response_ok r); [| eexists; split; reflexivity].
    destruct (json_body r) as [j|];
      cbn [world_of result_of fst snd log]; rewrite <- ?app_assoc;
      eexists; split; reflexivity.
Qed.

(** X19.  An operation writes an error record exactly when it raises the
    client's own [Exception] ("Failed to ...").  The failures that reach
    the caller as [KeyError], [TypeError] or [AttributeError] (a missing
    field, a line item that cannot be used, a token reply without token
    or expiry, the cache check on a float expiry) leave no record at all,
    and no run that returns a value writes an error record. *)
Theorem error_logged_iff_client_exception (py_str : pyval -> string)
    (net : nat -> net_reply) (op : operation) (c : client) (w : world) :
  exists recs,
    log (world_of (run_operation py_str net op c w)) = (log w ++ recs)%list /\
    existsb is_error_record recs
    = is_client_exception (result_of (run_operation py_str net op c w)).
Proof.
  destruct (get_auth_token_records net c w) as [recs [Hlog [Herr Hnil]]].
  destruct (get_auth_token net c w) as [[[tok|e] c'] w'] eqn:Hauth.
  - rewrite (Hnil tok eq_refl) in Hlog. cbn [world_of snd] in Hlog.
    rewrite app_nil_r in Hlog.
    destruct (run_operation_records py_str net op c c' w w' tok Hauth)
      as [recs' [Hlog' Herr']].
    exists recs'. rewrite Hlog', Hlog. auto.
  - rewrite (run_operation_auth_raises py_str net op c _ w _ _ Hauth).
    exists recs. auto.
Qed.

(** ** The example script *)

Lemma positive_expiry (now lat : Q) (n : Z) :
  (0 <= now)%Q -> (0 <= lat)%Q -> 0 < n ->
  Qeq_bool (now + lat + inject_Z n) 0 = false.
Proof.
  intros Hnow Hlat Hn.
  destruct (Qeq_bool (now + lat + inject_Z n) 0) eqn:E; [| reflexivity].
  apply Qeq_bool_eq in E. exfalso.
  assert (Hpos : (0 < inject_Z n)%Q).
  { unfold Qlt. simpl. lia. }
  lra.
Qed.

(** X20.  The example script of the source never gets to the status
    lookup.  Whenever the token endpoint answers its first request with a
    truthy token, whose text is printable ASCII, that expires in a
    positive number of seconds, below 2^1023 so that it is in the range
    of a float, the script sends that token request and the invoice POST
    and nothing else (no GET, no PUT); it prints either one line, the
    error of the invoice creation, or two lines, the id of the created
    invoice and the [TypeError] that the cache check of the second
    operation raises. *)
Theorem example_script_stops_after_invoice (py_str : pyval -> string)
    (net : nat -> net_reply) (w : world) (r : response) (d : pydict)
    (tok : pyval) (n : Z) :
  outcome (net (List.length (sent w))) = NetResponse r ->
  response_ok r = true ->
  json_body r = Some (PDict d) ->
  dict_lookup "access_token" d = Some tok ->
  truthy tok = true ->
  printable_ascii (py_str tok) = true ->
  dict_lookup "expires_in" d = Some (PInt n) ->
  0 < n < 2 ^ 1023 ->
  (0 <= clock w)%Q ->
  (0 <= latency (net (List.length (sent w))))%Q ->
  (exists request,
     sent (snd (main py_str net w))
     = (sent w ++
        [ token_request (init WORKDAY_TENANT CLIENT_ID CLIENT_SECRET);
          request ])%list /\
     req_method request = POST /\
     req_url request
     = (WORKDAY_TENANT ++ "/api/v1/financial-management/suppliers/invoices")
       %string) /\
  ((exists e,
      fst (fst (main py_str net w)) = [ "Integration error: " ++ exn_str e ])
   \/
   (exists invoice_id,
      fst (fst (main py_str net w))
      = [ "Created invoice with ID: " ++ invoice_id;
          "Integration error: '>' not supported between instances of 'float' and 'datetime.datetime'" ])).
Proof.
  intros Ho Hok Hj Ha Htok Hhdr He [Hn _] Hclock Hlat.
  set (workday := init WORKDAY_TENANT CLIENT_ID CLIENT_SECRET).
  pose proof (get_auth_token_no_token_refreshes net workday w r d tok n
                eq_refl Ho Hok Hj Ha He) as Hauth.
  cbn [workday init tenant_url client_id client_secret] in Hauth.
  fold workday in Hauth.
  match type of Hauth with
  | _ = (_, ?cc, ?ww) => set (c1 := cc) in *; set (w1 := ww) in *
  end.
  assert (Hfmt : operation_payload (OpCreateInvoice invoice)
                 = Return (Some (spec_invoice_payload invoice))).
  { unfold operation_payload.
    rewrite (formatted_invoice_valid invoice eq_refl). reflexivity. }
  destruct (run_operation_sends py_str net (OpCreateInvoice invoice)
              workday c1 w w1 tok _ Hauth eq_refl Hfmt
              (prepare_operation_request py_str (OpCreateInvoice invoice)
                 c1 tok (Some (spec_invoice_payload invoice))
                 eq_refl Hhdr eq_refl)) as [Hc Hs].
  simpl run_operation in Hc, Hs.
  unfold main. fold workday.
  destruct (create_invoice py_str net invoice workday w)
    as [[res c2] w2] eqn:Hcr.
  cbn [client_of world_of fst snd] in Hc, Hs. subst c2.
  assert (Hsent : exists request,
             sent w2 = (sent w ++ [token_request workday; request])%list /\
             req_method request = POST /\
             req_url request
             = (WORKDAY_TENANT
                ++ "/api/v1/financial-management/suppliers/invoices")%string).
  { exists (operation_request py_str (OpCreateInvoice invoice) c1 tok
              (Some (spec_invoice_payload invoice))).
    split; [| split; reflexivity].
    rewrite Hs. unfold w1. cbn [sent]. rewrite <- app_assoc. reflexivity. }
  assert (Hstale : forall invoice_id,
             get_invoice_status py_str net invoice_id c1 w2
             = (Raise (TypeError
      "'>' not supported between instances of 'float' and 'datetime.datetime'"),
                c1, w2)).
  { intros invoice_id.
    apply (run_operation_float_expiry py_str net
             (OpGetInvoiceStatus invoice_id) c1 w2
             (clock w + latency (net (List.length (sent w))) + inject_Z n)).
    - exact Htok.
    - reflexivity.
    - apply positive_expiry; assumption. }
  destruct res as [result|e].
  - destruct (py_getitem result "id") as [invoice_id|e].
    + rewrite Hstale. cbn [fst snd]. split; [exact Hsent |].
      right. eexists. reflexivity.
    + cbn [fst snd]. split; [exact Hsent |]. left. eexists. reflexivity.
  - cbn [fst snd]. split; [exact Hsent |]. left. eexists. reflexivity.
Qed.

(** ** The further properties on concrete runs *)

(** At time 1000 the token cached until 2000 is returned; at time 2000
    it is not: the token request goes out. *)
Lemma datetime_expiry_boundary_witness :
  truthy (token datetime_client) = true /\
  (1000 < 2000)%Q /\ (2000 <= 2000)%Q /\
  get_auth_token net_ok datetime_client sample_world
  = (Return (PStr "tok"), datetime_client, sample_world) /\
  sent (world_of (get_auth_token net_ok datetime_client
                    (mkWorld 2000 [] [])))
  = [ token_request datetime_client ].
Proof.
  destruct (datetime_expiry_boundary net_ok datetime_client sample_world 2000
              eq_refl eq_refl) as [Hhit _].
  destruct (datetime_expiry_boundary net_ok datetime_client
              (mkWorld 2000 [] []) 2000 eq_refl eq_refl) as [_ Hmiss].
  split; [reflexivity |]. split; [reflexivity |].
  split; [discriminate |].
  split; [apply Hhit; reflexivity | apply Hmiss; discriminate].
Defined.

Lemma bearer_token_is_cached_token_witness :
  get_auth_token net_ok sample_client sample_world
  = (Return (PStr "tok"), refreshed_client, refreshed_world) /\
  token refreshed_client = PStr "tok" /\
  exists request,
    sent (world_of (run_operation py_str_sample net_ok
                      (OpGetInvoiceStatus (PStr "WD-1"))
                      sample_client sample_world))
    = (sent refreshed_world ++ [request])%list /\
    In ("Authorization", "Bearer tok") (req_headers request).
Proof.
  split; [reflexivity |].
  exact (bearer_token_is_cached_token py_str_sample net_ok
           (OpGetInvoiceStatus (PStr "WD-1")) sample_client refreshed_client
           sample_world refreshed_world (PStr "tok") None
           eq_refl eq_refl eq_refl eq_refl eq_refl).
Defined.

Lemma token_reply_without_token_witness :
  get_auth_token net_no_token sample_client sample_world
  = (Raise (KeyError "access_token"), sample_client,
     mkWorld 1001 [token_request sample_client] []).
Proof.
  destruct (token_reply_without_token net_no_token sample_client sample_world
              (json_response (PDict [ ("error", PStr "invalid_client") ]))
              (PDict [ ("error", PStr "invalid_client") ])
              (KeyError "access_token")
              eq_refl eq_refl eq_refl eq_refl eq_refl) as [H _].
  exact H.
Defined.

Lemma token_reply_without_expiry_witness :
  get_auth_token net_no_expiry sample_client sample_world
  = (Raise (KeyError "expires_in"),
     mkClient "https://t.example.com" "id" "s3cret" (PStr "tok") PNone,
     mkWorld 1001 [token_request sample_client] []).
Proof.
  exact (token_reply_without_expiry net_no_expiry sample_client sample_world
           (json_response (PDict [ ("access_token", PStr "tok") ]))
           (PDict [ ("access_token", PStr "tok") ]) (PStr "tok")
           (KeyError "expires_in")
           eq_refl eq_refl eq_refl eq_refl eq_refl eq_refl).
Defined.

(** After the first refresh of the sample client, a status lookup, a
    payment update and a token request all stop at the cache check. *)
Lemma refreshed_client_fails_every_operation_witness :
  run_sequence py_str_sample net_ok
    [ OpGetInvoiceStatus (PStr "WD-1");
      OpUpdateInvoicePayment (PStr "WD-1") sample_payment;
      OpGetAuthToken ]
    refreshed_client refreshed_world
  = ([ Raise (TypeError
      "'>' not supported between instances of 'float' and 'datetime.datetime'");
       Raise (TypeError
      "'>' not supported between instances of 'float' and 'datetime.datetime'");
       Raise (TypeError
      "'>' not supported between instances of 'float' and 'datetime.datetime'") ],
     refreshed_client, refreshed_world).
Proof.
  exact (refreshed_client_fails_every_operation py_str_sample net_ok net_ok
           sample_client refreshed_client sample_world refreshed_world
           refreshed_world (PStr "tok")
           [ OpGetInvoiceStatus (PStr "WD-1");
             OpUpdateInvoicePayment (PStr "WD-1") sample_payment;
             OpGetAuthToken ]
           eq_refl eq_refl eq_refl eq_refl).
Defined.

Lemma get_invoice_status_success_is_silent_witness :
  get_invoice_status py_str_sample net_ok (PStr "WD-1")
    sample_client sample_world
  = (Return (PDict [ ("id", PStr "WD-1") ]), refreshed_client,
     mkWorld 1002
       [ token_request sample_client;
         mkRequest GET
           "https://t.example.com/api/v1/financial-management/suppliers/invoices/WD-1"
           [ ("Authorization", "Bearer tok"); ("Accept", "application/json") ]
           NoBody ]
       []).
Proof.
  exact (get_invoice_status_success_is_silent py_str_sample net_ok
           (PStr "WD-1") sample_client refreshed_client sample_world
           refreshed_world (PStr "tok") (PDict [ ("id", PStr "WD-1") ])
           (json_response (PDict [ ("id", PStr "WD-1") ]))
           eq_refl eq_refl eq_refl eq_refl eq_refl).
Defined.

Lemma create_invoice_success_witness :
  exists invoice_number,
    dict_lookup "invoice_number" scenario_request = Some invoice_number /\
    log (world_of (create_invoice py_str_sample net_ok scenario_request
                     sample_client sample_world))
    = [ mkLog INFO ("Successfully created invoice "
                    ++ py_str_sample invoice_number ++ " in Workday") ].
Proof.
  destruct (create_invoice_success py_str_sample net_ok scenario_request
              sample_client refreshed_client sample_world refreshed_world
              (PStr "tok") scenario_payload (PDict [ ("id", PStr "WD-1") ])
              (json_response (PDict [ ("id", PStr "WD-1") ]))
              eq_refl eq_refl eq_refl eq_refl eq_refl eq_refl eq_refl)
    as [no [Hno Hrun]].
  exists no. split; [exact Hno |]. rewrite Hrun. reflexivity.
Defined.

Lemma payment_logged_as_success_then_fails_witness :
  log (world_of (update_invoice_payment py_str_sample net_html (PStr "WD-1")
                   sample_payment sample_client sample_world))
  = [ mkLog INFO "Successfully updated payment for invoice WD-1";
      mkLog ERROR
        "Error updating payment: Expecting value: line 1 column 1 (char 0)" ].
Proof.
  destruct (payment_logged_as_success_then_fails py_str_sample net_html
              (PStr "WD-1") sample_payment sample_client refreshed_client
              sample_world refreshed_world (PStr "tok")
              (spec_payment_payload sample_payment)
              (mkResponse 200 "<html>ok</html>" None ""
                 "Expecting value: line 1 column 1 (char 0)")
              eq_refl eq_refl eq_refl eq_refl eq_refl eq_refl eq_refl)
    as [_ Hlog].
  exact Hlog.
Defined.

Lemma create_invoice_error_reply_body_not_logged_witness :
  log (world_of (create_invoice py_str_sample net_unauthorized
                   scenario_request sample_client sample_world))
  = [ mkLog ERROR "Error creating invoice: 401 Client Error: Unauthorized" ].
Proof.
  exact (create_invoice_error_reply_body_not_logged py_str_sample
           net_unauthorized scenario_request sample_client refreshed_client
           sample_world refreshed_world (PStr "tok") scenario_payload
           (error_response 401 "denied" "401 Client Error: Unauthorized")
           eq_refl eq_refl eq_refl eq_refl eq_refl eq_refl).
Defined.

Lemma create_invoice_redirect_body_logged_witness :
  log (world_of (create_invoice py_str_sample net_redirects
                   scenario_request sample_client sample_world))
  = [ mkLog ERROR "Error creating invoice: Exceeded 30 redirects.";
      mkLog ERROR "Response: Moved" ].
Proof.
  exact (create_invoice_redirect_body_logged py_str_sample net_redirects
           scenario_request sample_client refreshed_client sample_world
           refreshed_world (PStr "tok") scenario_payload
           "Exceeded 30 redirects." (mkResponse 302 "Moved" None "" "")
           eq_refl eq_refl eq_refl eq_refl eq_refl eq_refl).
Defined.

Lemma payment_payload_and_request_witness :
  formatted_payment payment
  = Return (PDict
      [ ("paymentDate", PStr "2025-03-15");
        ("paymentMethod", PStr "ACH");
        ("paymentAmount", PDict [ ("amount", PFloat 1250.75);
                                  ("currency", PStr "USD") ]);
        ("paymentReference", PStr "PMT-2025-0089") ]) /\
  result_of (update_invoice_payment py_str_sample net_ok (PStr "WD-1")
               payment sample_client sample_world)
  = Return (PDict [ ("id", PStr "WD-1") ]).
Proof.
  destruct (payment_payload_and_request py_str_sample net_ok (PStr "WD-1")
              payment sample_client refreshed_client sample_world
              refreshed_world (PStr "tok") (PDict [ ("id", PStr "WD-1") ])
              (json_response (PDict [ ("id", PStr "WD-1") ]))
              eq_refl eq_refl eq_refl eq_refl eq_refl eq_refl eq_refl)
    as [Hp Hrun].
  split; [exact Hp | rewrite Hrun; reflexivity].
Defined.

(** The request with a datetime as invoice date: the token is fetched,
    the POST is not sent. *)
Lemma datetime_payload_raises_type_error_witness :
  create_invoice py_str_sample net_ok datetime_request
    sample_client sample_world
  = (Raise (TypeError "Object of type datetime is not JSON serializable"),
     refreshed_client, refreshed_world).
Proof.
  exact (datetime_payload_raises_type_error py_str_sample net_ok
           (OpCreateInvoice datetime_request) sample_client refreshed_client
           sample_world refreshed_world (PStr "tok")
           (spec_invoice_payload datetime_request)
           eq_refl eq_refl eq_refl eq_refl eq_refl).
Defined.


(** A request with nothing but a supplier lacks its invoice number
    first; a payment with nothing but a date lacks its method first. *)
Lemma first_missing_field_is_reported_witness :
  create_invoice py_str_sample net_ok [ ("supplier_id", PStr "S1") ]
    sample_client sample_world
  = (Raise (KeyError "invoice_number"), refreshed_client, refreshed_world) /\
  update_invoice_payment py_str_sample net_ok (PStr "WD-1")
    [ ("payment_date", PStr "2025-03-15") ] sample_client sample_world
  = (Raise (KeyError "payment_method"), refreshed_client, refreshed_world).
Proof.
  exact (first_missing_field_is_reported py_str_sample net_ok
           [ ("supplier_id", PStr "S1") ]
           [ ("payment_date", PStr "2025-03-15") ] (PStr "WD-1")
           "invoice_number" "payment_method"
           sample_client refreshed_client sample_world refreshed_world
           (PStr "tok") eq_refl eq_refl eq_refl).
Defined.

(** The string among the line items is reported, not the dict without
    an amount that follows it. *)
Lemma first_unusable_line_item_is_reported_witness :
  formatted_invoice bad_line_request
  = Raise (AttributeError "'str' object has no attribute 'get'").
Proof.
  exact (first_unusable_line_item_is_reported bad_line_request
           [ PDict [ ("amount", PFloat 100) ] ]
           [ PDict [ ("description", PStr "no amount") ] ]
           (PStr "freight") eq_refl eq_refl eq_refl eq_refl).
Defined.

Lemma invoice_without_line_items_is_posted_witness :
  exists p request,
    formatted_invoice empty_lines_request = Return p /\
    field "invoiceLines" p = Some (PList []) /\
    sent (world_of (create_invoice py_str_sample net_ok empty_lines_request
                      sample_client sample_world))
    = (sent refreshed_world ++ [request])%list /\
    req_method request = POST /\
    req_body request = JsonBody p.
Proof.
  destruct (invoice_without_line_items_is_posted py_str_sample net_ok
              empty_lines_request (PList []) sample_client refreshed_client
              sample_world refreshed_world (PStr "tok")
              eq_refl eq_refl (or_introl eq_refl) eq_refl)
    as [p [Hp [Hlines Hsend]]].
  assert (Hjson : json_serializable p = true).
  { assert (E : Return p = formatted_invoice empty_lines_request)
      by (symmetry; exact Hp).
    vm_compute in E. inversion E. reflexivity. }
  destruct (Hsend eq_refl Hjson) as [request Hrequest].
  exists p, request. split; [exact Hp |]. split; [exact Hlines |].
  exact Hrequest.
Defined.

Lemma scenario_request_reordered_agrees :
  forall k, In k invoice_request_keys ->
            dict_lookup k scenario_request
            = dict_lookup k scenario_request_reordered.
Proof.
  intros k Hk. unfold invoice_request_keys in Hk. simpl in Hk.
  repeat destruct Hk as [Hk | Hk]; try contradiction; subst k; reflexivity.
Defined.

Lemma create_invoice_ignores_other_keys_witness :
  create_invoice py_str_sample net_ok scenario_request
    sample_client sample_world
  = create_invoice py_str_sample net_ok scenario_request_reordered
      sample_client sample_world.
Proof.
  exact (create_invoice_ignores_other_keys py_str_sample net_ok
           scenario_request scenario_request_reordered
           sample_client sample_world scenario_request_reordered_agrees).
Defined.

(** The script against the sample server: the invoice is created, the
    status lookup stops at the cache check. *)
Lemma example_script_stops_after_invoice_witness :
  fst (fst (main py_str_sample net_ok sample_world))
  = [ "Created invoice with ID: WD-1";
      "Integration error: '>' not supported between instances of 'float' and 'datetime.datetime'" ]
  /\
  exists request,
    sent (snd (main py_str_sample net_ok sample_world))
    = [ token_request (init WORKDAY_TENANT CLIENT_ID CLIENT_SECRET); request ]
    /\ req_method request = POST.
Proof.
  split; [reflexivity |].
  destruct (example_script_stops_after_invoice py_str_sample net_ok
              sample_world (json_response token_json)
              [ ("access_token", PStr "tok"); ("expires_in", PInt 3600) ]
              (PStr "tok") 3600
              eq_refl eq_refl eq_refl eq_refl eq_refl eq_refl eq_refl
              (conj eq_refl eq_refl))
    as [[request [Hs [Hm _]]] _]; try discriminate.
  exists request. split; [exact Hs | exact Hm].
Defined.
